(** * JZ4780 NAND driver (drivers/mtd/nand/jz4780_nand.c)

    A shallow embedding of the driver's framework hooks (chip select,
    command control, device ready, the three ECC hooks) and of its ECC
    initialisation, with the properties the driver's specification states
    about them.

    Conventions.
    - C integers are [Z]; where the C type is 32 bits wide the wrap-around is
      written out ([to_int], [to_u32]).
    - An [__iomem] pointer is the [Z] of its address; [base + OFFSET_x] is
      pointer arithmetic inside the bank window mapped by
      [devm_ioremap_resource], so it is plain addition.
    - Everything the driver does to the outside (NEMC chip enable, byte
      writes to the bus, BCH engine calls, warnings) is appended to an event
      log, oldest event first.
    - An array access outside the array is undefined in C: the embedding
      returns [None] there. *)

From Stdlib Require Import ZArith Lia.
From stdpp Require Import base option list gmap.

#[local] Set Warnings "-clear-no-such-hyp".

Local Open Scope Z_scope.

(** ** 32-bit arithmetic *)

(** [unsigned int], [uint32_t], [__u32]. *)
Definition to_u32 (z : Z) : Z := z mod 2 ^ 32.

(** [int]; the kernel is built with wrapping signed arithmetic. *)
Definition to_int (z : Z) : Z := (z + 2 ^ 31) mod 2 ^ 32 - 2 ^ 31.

(** [u8], the value [writeb] puts on the bus. *)
Definition to_u8 (z : Z) : Z := z mod 2 ^ 8.

(** A C condition [x & FLAG]. *)
Definition has_flag (x flag : Z) : bool := negb (Z.land x flag =? 0).

(** ** Data model *)

Definition OFFSET_DATA : Z := 0x00000000.
Definition OFFSET_CMD : Z := 0x00400000.
Definition OFFSET_ADDR : Z := 0x00800000.

(** Command delay when there is no R/B pin. *)
Definition RB_DELAY_US : Z := 100.

Record jz4780_nand_cs := Build_cs {
  bank : Z;
  base : Z
}.

Record jz4780_nand_controller := Build_controller {
  bch : option Z;
  num_banks : Z;
  cs : list jz4780_nand_cs
}.

(** Modelled from the spec: the ECC modes, [nand_ecc_modes_t] of
    linux/mtd/nand.h: none (raw), the hardware modes and the two
    pure-software modes, under the names the driver and the header use. *)
Inductive nand_ecc_modes_t :=
  | NAND_ECC_NONE
  | NAND_ECC_SOFT
  | NAND_ECC_HW
  | NAND_ECC_HW_SYNDROME
  | NAND_ECC_HW_OOB_FIRST
  | NAND_ECC_SOFT_BCH.

Global Instance nand_ecc_modes_eq_dec : EqDecision nand_ecc_modes_t.
Proof. solve_decision. Defined.

Record nand_oobfree := Build_oobfree {
  oob_offset : Z;
  oob_length : Z
}.

(** [struct nand_ecclayout]; the two lists are the fixed-size arrays
    [eccpos] and [oobfree]. *)
Record nand_ecclayout := Build_ecclayout {
  eccbytes : Z;
  eccpos : list Z;
  oobfree : list nand_oobfree
}.

(** The fields of [struct nand_ecc_ctrl] the driver touches.  A hook field
    is [true] when it points to the driver's function of that name, and
    [ecc_layout] is [true] when it points to the chip's own [ecclayout]. *)
Record nand_ecc_ctrl := Build_ecc_ctrl {
  ecc_mode : nand_ecc_modes_t;
  ecc_size : Z;
  ecc_bytes : Z;
  ecc_strength : Z;
  ecc_hwctl : bool;
  ecc_calculate : bool;
  ecc_correct : bool;
  ecc_layout : bool
}.

Record nand_chip := Build_nand_chip {
  IO_ADDR_R : Z;
  IO_ADDR_W : Z;
  chip_delay : Z;
  dev_ready : bool;
  select_chip : bool;
  cmd_ctrl : bool;
  ecc : nand_ecc_ctrl
}.

Record mtd_info := Build_mtd_info {
  writesize : Z;
  oobsize : Z
}.

Record jz4780_nand_chip := Build_chip {
  mtd : mtd_info;
  chip : nand_chip;
  ecclayout : nand_ecclayout;
  busy_gpio : option Z;
  wp_gpio : option Z;
  busy_gpio_active_low : bool;
  wp_gpio_active_low : bool;
  reading : bool;
  selected : Z
}.

Record jz4780_bch_params := Build_bch_params {
  p_size : Z;
  p_bytes : Z;
  p_strength : Z
}.

(** What the driver does to its collaborators, in program order. *)
Inductive event :=
  | EvNemcSetType (bank : Z)
  | EvNemcAssert (bank : Z) (assert : bool)
  | EvWriteb (value addr : Z)
  | EvWarn
  | EvBchCalculate (handle : option Z) (params : jz4780_bch_params) (dat : list Z)
  | EvBchCorrect (handle : option Z) (params : jz4780_bch_params) (dat read_ecc : list Z)
  | EvBchRelease (handle : option Z)
  | EvMtdParseRegister (ret : Z)
  | EvNandRelease.

Record state := Build_state {
  nfc : jz4780_nand_controller;
  nand : jz4780_nand_chip;
  log : list event
}.

(** *** Field updates *)

Definition set_IO_ADDR_R (a : Z) (c : nand_chip) : nand_chip :=
  Build_nand_chip a (IO_ADDR_W c) (chip_delay c) (dev_ready c)
    (select_chip c) (cmd_ctrl c) (ecc c).

Definition set_IO_ADDR_W (a : Z) (c : nand_chip) : nand_chip :=
  Build_nand_chip (IO_ADDR_R c) a (chip_delay c) (dev_ready c)
    (select_chip c) (cmd_ctrl c) (ecc c).

Definition set_ecc (e : nand_ecc_ctrl) (c : nand_chip) : nand_chip :=
  Build_nand_chip (IO_ADDR_R c) (IO_ADDR_W c) (chip_delay c) (dev_ready c)
    (select_chip c) (cmd_ctrl c) e.

Definition set_chip (c : nand_chip) (n : jz4780_nand_chip) : jz4780_nand_chip :=
  Build_chip (mtd n) c (ecclayout n) (busy_gpio n) (wp_gpio n)
    (busy_gpio_active_low n) (wp_gpio_active_low n) (reading n) (selected n).

Definition set_ecclayout (l : nand_ecclayout) (n : jz4780_nand_chip)
  : jz4780_nand_chip :=
  Build_chip (mtd n) (chip n) l (busy_gpio n) (wp_gpio n)
    (busy_gpio_active_low n) (wp_gpio_active_low n) (reading n) (selected n).

Definition set_reading (r : bool) (n : jz4780_nand_chip) : jz4780_nand_chip :=
  Build_chip (mtd n) (chip n) (ecclayout n) (busy_gpio n) (wp_gpio n)
    (busy_gpio_active_low n) (wp_gpio_active_low n) r (selected n).

Definition set_selected (s : Z) (n : jz4780_nand_chip) : jz4780_nand_chip :=
  Build_chip (mtd n) (chip n) (ecclayout n) (busy_gpio n) (wp_gpio n)
    (busy_gpio_active_low n) (wp_gpio_active_low n) (reading n) s.

Definition set_nand (n : jz4780_nand_chip) (st : state) : state :=
  Build_state (nfc st) n (log st).

Definition set_nfc (c : jz4780_nand_controller) (st : state) : state :=
  Build_state c (nand st) (log st).

Definition emit (e : event) (st : state) : state :=
  Build_state (nfc st) (nand st) (log st ++ [e]).

(** [nfc->cs[i]] read through; [None] outside the array. *)
Definition cs_at (c : jz4780_nand_controller) (i : Z) : option jz4780_nand_cs :=
  if i <? 0 then None else cs c !! Z.to_nat i.

(** ** The collaborators

    Constants of linux/mtd/nand.h and linux/errno.h and the functions of the
    NAND framework, gpiolib, the device tree and the BCH driver that this
    file calls but does not define. *)
Class Externals := {
  NAND_NCE : Z;
  NAND_CLE : Z;
  NAND_ALE : Z;
  NAND_CTRL_CHANGE : Z;
  NAND_CMD_NONE : Z;
  NAND_ECC_READ : Z;
  NAND_ECC_WRITE : Z;
  ENODEV : Z;
  ENOMEM : Z;
  (** logical value of a GPIO line *)
  gpiod_get_value_cansleep : option Z -> Z;
  (** result and the ECC bytes left in [ecc_code] *)
  jz4780_bch_calculate :
    option Z -> jz4780_bch_params -> list Z -> list Z -> Z * list Z;
  (** result and the data buffer after in-place correction *)
  jz4780_bch_correct :
    option Z -> jz4780_bch_params -> list Z -> list Z -> Z * list Z;
  (** the node behind the "ingenic,bch-controller" phandle, if any *)
  of_parse_phandle_bch : option Z;
  (** result and the new value of [nfc->bch] *)
  jz4780_bch_get : Z -> option Z -> Z * option Z;
  (** capacities of [eccpos] and [oobfree] in [struct nand_ecclayout] *)
  MTD_MAX_ECCPOS_ENTRIES_LARGE : nat;
  MTD_MAX_OOBFREE_ENTRIES_LARGE : nat;
  (** the mapped window of a memory resource, or an errno ([IS_ERR]) *)
  devm_ioremap_resource : Z -> Z + Z;
  (** whether the allocation of the chip record succeeds *)
  devm_kzalloc_ok : bool;
  (** the "rb" ([true]) or "wp" ([false]) line: absent, present, or errno *)
  devm_gpiod_get_optional : bool -> option Z + Z;
  gpiod_is_active_low : Z -> bool;
  (** the two phases of the framework's scan, and registration *)
  nand_scan_ident : state -> Z * state;
  nand_scan_tail : state -> Z * state;
  mtd_device_parse_register : state -> Z
}.

(** Modelled from the spec: [fls] of linux/bitops.h, the 1-based position
    of the highest set bit of a 32-bit word, 0 for the word 0. *)
Definition fls (x : Z) : Z :=
  let u := to_u32 x in
  if u =? 0 then 0 else Z.log2 u + 1.

(** [a[i] = v] on a fixed-size array; [None] outside it. *)
Definition store_at {A} (i : Z) (v : A) (a : list A) : option (list A) :=
  if (0 <=? i) && (i <? Z.of_nat (length a)) then Some (<[Z.to_nat i := v]> a)
  else None.

Section Driver.
Context {ext : Externals}.

(** ** Chip select and command control *)

Definition jz4780_nand_select_chip (chipnr : Z) (st : state) : option state :=
  st1 ← (if chipnr =? -1 then
           (* Ensure the currently selected chip is deasserted. *)
           if 0 <=? selected (nand st) then
             c ← cs_at (nfc st) (selected (nand st));
             Some (emit (EvNemcAssert (bank c) false) st)
           else Some st
         else
           c ← cs_at (nfc st) chipnr;
           let ch := set_IO_ADDR_W (base c + OFFSET_DATA)
                       (set_IO_ADDR_R (base c + OFFSET_DATA) (chip (nand st))) in
           Some (set_nand (set_chip ch (nand st)) st));
  Some (set_nand (set_selected chipnr (nand st1)) st1).

Definition jz4780_nand_cmd_ctrl (cmd ctrl : Z) (st : state) : option state :=
  if selected (nand st) <? 0 then Some (emit EvWarn st)
  else
    st1 ← (if has_flag ctrl NAND_CTRL_CHANGE then
             c ← cs_at (nfc st) (selected (nand st));
             let w := if has_flag ctrl NAND_ALE then base c + OFFSET_ADDR
                      else if has_flag ctrl NAND_CLE then base c + OFFSET_CMD
                      else base c + OFFSET_DATA in
             Some (emit (EvNemcAssert (bank c) (has_flag ctrl NAND_NCE))
                     (set_nand (set_chip (set_IO_ADDR_W w (chip (nand st)))
                                  (nand st)) st))
           else Some st);
    if cmd =? NAND_CMD_NONE then Some st1
    else Some (emit (EvWriteb (to_u8 cmd) (IO_ADDR_W (chip (nand st1)))) st1).

(** ** Device ready *)

Definition jz4780_nand_dev_ready (st : state) : Z :=
  if Z.lxor (gpiod_get_value_cansleep (busy_gpio (nand st)))
            (Z.b2z (busy_gpio_active_low (nand st))) =? 0
  then 1 else 0.

(** ** ECC hooks *)

Definition jz4780_nand_ecc_hwctl (mode : Z) (st : state) : state :=
  set_nand (set_reading (mode =? NAND_ECC_READ) (nand st)) st.

Definition bch_params_of (st : state) : jz4780_bch_params :=
  let e := ecc (chip (nand st)) in
  Build_bch_params (ecc_size e) (ecc_bytes e) (ecc_strength e).

(** Returns the result, the contents of [ecc_code] afterwards, and the
    state. *)
Definition jz4780_nand_ecc_calculate (dat ecc_code : list Z) (st : state)
  : Z * list Z * state :=
  (* Don't need to generate the ECC when reading, BCH does it for us as
     part of decoding/correction. *)
  if reading (nand st) then (0, ecc_code, st)
  else
    let params := bch_params_of st in
    let '(ret, out) := jz4780_bch_calculate (bch (nfc st)) params dat ecc_code in
    (ret, out, emit (EvBchCalculate (bch (nfc st)) params dat) st).

(** Returns the result, the contents of [dat] afterwards, and the state. *)
Definition jz4780_nand_ecc_correct (dat read_ecc calc_ecc : list Z) (st : state)
  : Z * list Z * state :=
  let params := bch_params_of st in
  let '(ret, out) := jz4780_bch_correct (bch (nfc st)) params dat read_ecc in
  (ret, out, emit (EvBchCorrect (bch (nfc st)) params dat read_ecc) st).

(** ** ECC initialisation *)

(** [fls(1 + 8 * chip->ecc.size) * chip->ecc.strength / 8] on [int]. *)
Definition ecc_bytes_of (size strength : Z) : Z :=
  Z.quot (to_int (fls (to_int (1 + to_int (8 * size))) * strength)) 8.

(** [for (i = ...; i < layout->eccbytes; i++) layout->eccpos[i] = start + i;]
    with [n] iterations left. *)
Fixpoint fill_eccpos (n : nat) (i start : Z) (pos : list Z) : option (list Z) :=
  match n with
  | O => Some pos
  | S n' => pos' ← store_at i (to_u32 (start + i)) pos;
            fill_eccpos n' (i + 1) start pos'
  end.

Definition set_ecc_of (e : nand_ecc_ctrl) (st : state) : state :=
  set_nand (set_chip (set_ecc e (chip (nand st))) (nand st)) st.

(** [jz4780_nand_init_ecc], the part under [if (chip->ecc.mode ==
    NAND_ECC_HW)]: the state to go on with, or the value returned early. *)
Definition init_ecc_bch (st : state) : state + Z * state :=
  if decide (ecc_mode (ecc (chip (nand st))) = NAND_ECC_HW) then
    (* Only setup the BCH controller once. *)
    let got :=
      match bch (nfc st) with
      | Some _ => inl st
      | None =>
          match of_parse_phandle_bch with
          | Some bch_np =>
              let '(ret, h) := jz4780_bch_get bch_np (bch (nfc st)) in
              let st' := set_nfc (Build_controller h (num_banks (nfc st))
                                    (cs (nfc st))) st in
              if ret =? 0 then inl st' else inr (ret, st')
          | None => inr (- ENODEV, st)
          end
      end in
    match got with
    | inl st' =>
        let e := ecc (chip (nand st')) in
        inl (set_ecc_of (Build_ecc_ctrl (ecc_mode e) (ecc_size e) (ecc_bytes e)
                           (ecc_strength e) true true true (ecc_layout e)) st')
    | inr r => inr r
    end
  else inl st.

(** [jz4780_nand_init_ecc] from "The NAND core will generate the ECC
    layout" to its end. *)
Definition init_ecc_layout (st : state) : option (Z * state) :=
  let e := ecc (chip (nand st)) in
  (* The NAND core will generate the ECC layout. *)
  if decide (ecc_mode e = NAND_ECC_SOFT ∨ ecc_mode e = NAND_ECC_SOFT_BCH)
  then Some (0, st)
  else
    (* Generate ECC layout. ECC codes are right aligned in the OOB area. *)
    let layout := ecclayout (nand st) in
    if to_u32 (ecc_size e) =? 0 then None
    else
      let n := to_u32 (to_u32 (writesize (mtd (nand st))) / to_u32 (ecc_size e)
                       * to_u32 (ecc_bytes e)) in
      let start := to_u32 (to_u32 (oobsize (mtd (nand st))) - n) in
      pos ← fill_eccpos (Z.to_nat n) 0 start (eccpos layout);
      free ← store_at 0
               (Build_oobfree 2 (to_u32 (to_u32 (oobsize (mtd (nand st))) - n - 2)))
               (oobfree layout);
      let st' := set_nand (set_ecclayout (Build_ecclayout n pos free) (nand st))
                   st in
      Some (0, set_ecc_of (Build_ecc_ctrl (ecc_mode e) (ecc_size e) (ecc_bytes e)
                             (ecc_strength e) (ecc_hwctl e) (ecc_calculate e)
                             (ecc_correct e) true) st').

(** The [dev_info] lines between the two parts only print. *)
Definition jz4780_nand_init_ecc (st : state) : option (Z * state) :=
  let e := ecc (chip (nand st)) in
  let st1 := set_ecc_of
               (Build_ecc_ctrl (ecc_mode e) (ecc_size e)
                  (ecc_bytes_of (ecc_size e) (ecc_strength e)) (ecc_strength e)
                  (ecc_hwctl e) (ecc_calculate e) (ecc_correct e) (ecc_layout e))
               st in
  match init_ecc_bch st1 with
  | inr r => Some r
  | inl st2 => init_ecc_layout st2
  end.

(** ** Chip attach *)

(** The chip record as [devm_kzalloc] hands it out: all zero. *)
Definition zeroed_chip : jz4780_nand_chip :=
  Build_chip (Build_mtd_info 0 0)
    (Build_nand_chip 0 0 0 false false false
       (Build_ecc_ctrl NAND_ECC_NONE 0 0 0 false false false false))
    (Build_ecclayout 0 (replicate MTD_MAX_ECCPOS_ENTRIES_LARGE 0)
       (replicate MTD_MAX_OOBFREE_ENTRIES_LARGE (Build_oobfree 0 0)))
    None None false false false 0.

(** [err_release_bch:] *)
Definition release_bch (st : state) : state :=
  match bch (nfc st) with
  | Some _ => emit (EvBchRelease (bch (nfc st))) st
  | None => st
  end.

(** [jz4780_nand_init_chip] from the call of [jz4780_nand_init_ecc] on. *)
Definition init_chip_scan (st : state) : option (Z * state) :=
  '(ret, st1) ← jz4780_nand_init_ecc st;
  if negb (ret =? 0) then Some (ret, st1)
  else
    let '(ret, st2) := nand_scan_tail st1 in
    if negb (ret =? 0) then Some (ret, release_bch st2)
    else
      let ret := mtd_device_parse_register st2 in
      let st3 := emit (EvMtdParseRegister ret) st2 in
      if negb (ret =? 0) then Some (ret, release_bch (emit EvNandRelease st3))
      else Some (0, st3).

Definition jz4780_nand_init_chip (chipnr : Z) (st : state) : option (Z * state) :=
  c ← cs_at (nfc st) chipnr;
  let st1 := emit (EvNemcSetType (bank c)) st in
  let res := devm_ioremap_resource chipnr in
  let ptr := match res with inl p => p | inr e => e end in
  let st2 := set_nfc (Build_controller (bch (nfc st1)) (num_banks (nfc st1))
                        (<[Z.to_nat chipnr := Build_cs (bank c) ptr]> (cs (nfc st1))))
               st1 in
  match res with
  | inr e => Some (e, st2)
  | inl _ =>
      if negb devm_kzalloc_ok then Some (- ENOMEM, st2)
      else
        match devm_gpiod_get_optional true with
        | inr e => Some (e, st2)
        | inl busy =>
            let rb_low := match busy with
                          | Some d => gpiod_is_active_low d
                          | None => false
                          end in
            match devm_gpiod_get_optional false with
            | inr e => Some (e, st2)
            | inl wp =>
                let wp_low := match wp with
                              | Some d => gpiod_is_active_low d
                              | None => false
                              end in
                let z := zeroed_chip in
                let ch := Build_nand_chip 0 0 RB_DELAY_US (bool_decide (is_Some busy))
                            true true (ecc (chip z)) in
                let n := Build_chip (mtd z) ch (ecclayout z) busy wp rb_low wp_low
                           false (-1) in
                let '(ret, st3) := nand_scan_ident (set_nand n st2) in
                if negb (ret =? 0) then Some (ret, st3)
                else init_chip_scan st3
            end
        end
  end.

End Driver.

(** ** The NEMC chip-enable lines *)

(** Modelled from the spec: [jz4780_nemc_assert] of the NEMC companion
    driver, which asserts or deasserts the chip-enable line of one bank and
    leaves the other banks alone.  The set holds the banks whose line is
    asserted. *)
Definition nemc_step (asserted : gset Z) (e : event) : gset Z :=
  match e with
  | EvNemcAssert b true => {[b]} ∪ asserted
  | EvNemcAssert b false => asserted ∖ {[b]}
  | _ => asserted
  end.

(** The banks asserted after a log, none being asserted before it. *)
Definition nemc_asserted (l : list event) : gset Z := foldl nemc_step ∅ l.

(** An event that changes no chip-enable line but that of bank [b]. *)
Definition only_bank (b : Z) (e : event) : Prop :=
  match e with
  | EvNemcAssert b' _ => b' = b
  | _ => True
  end.

(** The number of times the BCH engine was asked to compute ECC bytes. *)
Definition is_bch_calculate (e : event) : bool :=
  match e with
  | EvBchCalculate _ _ _ => true
  | _ => false
  end.

Definition bch_calculate_calls (l : list event) : nat :=
  length (List.filter is_bch_calculate l).

(** ** Sequences of hook calls *)

Section Sessions.
Context {ext : Externals}.

(** A run of [cmd_ctrl] calls, each given as [(cmd, ctrl)]. *)
Fixpoint cmd_ctrl_seq (calls : list (Z * Z)) (st : state) : option state :=
  match calls with
  | [] => Some st
  | (cmd, ctrl) :: rest =>
      st' ← jz4780_nand_cmd_ctrl cmd ctrl st; cmd_ctrl_seq rest st'
  end.

(** [select_chip(a)], the [cmd_ctrl] calls, [select_chip(-1)]. *)
Definition select_session (a : Z) (calls : list (Z * Z)) (st : state)
  : option state :=
  st1 ← jz4780_nand_select_chip a st;
  st2 ← cmd_ctrl_seq calls st1;
  jz4780_nand_select_chip (-1) st2.

End Sessions.

(** ** The specification's formula for the ECC byte count *)

(** The 1-based position of the highest set bit of a positive [x]. *)
Definition highest_bit_index (x : Z) : Z := Z.log2 x + 1.

Definition ceil_div (a b : Z) : Z := (a + b - 1) / b.

(** [ceil(strength * ceil_log2(1 + 8*step_size) / 8)] *)
Definition spec_ecc_bytes_per_step (step_size strength : Z) : Z :=
  ceil_div (strength * highest_bit_index (1 + 8 * step_size)) 8.

(** [(page_write_size / step_size) * ecc_bytes_per_step] *)
Definition total_ecc_bytes (st : state) : Z :=
  let e := ecc (chip (nand st)) in
  writesize (mtd (nand st)) / ecc_size e
  * ecc_bytes_of (ecc_size e) (ecc_strength e).

(** The value [jz4780_nand_init_ecc] stores in [layout->eccbytes]. *)
Definition layout_eccbytes (st : state) : Z :=
  let e := ecc (chip (nand st)) in
  to_u32 (to_u32 (writesize (mtd (nand st))) / to_u32 (ecc_size e)
          * to_u32 (ecc_bytes_of (ecc_size e) (ecc_strength e))).

(** The layout loop stays inside [eccpos], [oobfree] has an entry 0, and
    the division by the step size is defined. *)
Definition layout_fits (st : state) : Prop :=
  to_u32 (ecc_size (ecc (chip (nand st)))) ≠ 0 ∧
  (Z.to_nat (layout_eccbytes st) ≤ length (eccpos (ecclayout (nand st))))%nat ∧
  (0 < length (oobfree (ecclayout (nand st))))%nat.

(** The layout is left to the NAND core. *)
Definition layout_skipped (st : state) : Prop :=
  ecc_mode (ecc (chip (nand st))) = NAND_ECC_SOFT ∨
  ecc_mode (ecc (chip (nand st))) = NAND_ECC_SOFT_BCH.

(** The BCH engine is at hand: already acquired, or the device tree names
    it and [jz4780_bch_get] succeeds. *)
Definition bch_ready `{Externals} (st : state) : Prop :=
  is_Some (bch (nfc st)) ∨
  ∃ np h, of_parse_phandle_bch = Some np ∧
          jz4780_bch_get np (bch (nfc st)) = (0, h).

(** ** A concrete platform

    The constants are those of linux/mtd/nand.h and linux/errno.h; the
    collaborators are the simplest ones that behave as on a board with one
    ready/busy line, a BCH engine, and the geometry [geom] found by the
    identification phase. *)
Record geometry := Build_geometry {
  g_mode : nand_ecc_modes_t;
  g_step : Z;
  g_strength : Z;
  g_writesize : Z;
  g_oobsize : Z
}.

Definition with_geometry (g : geometry) (st : state) : state :=
  let n := nand st in
  let c := chip n in
  let e := ecc c in
  set_nand
    (Build_chip (Build_mtd_info (g_writesize g) (g_oobsize g))
       (set_ecc (Build_ecc_ctrl (g_mode g) (g_step g) (ecc_bytes e) (g_strength g)
                   (ecc_hwctl e) (ecc_calculate e) (ecc_correct e) (ecc_layout e)) c)
       (ecclayout n) (busy_gpio n) (wp_gpio n) (busy_gpio_active_low n)
       (wp_gpio_active_low n) (reading n) (selected n)) st.

Definition board (gpio_level : Z) (geom : geometry) : Externals := {|
  NAND_NCE := 0x01;
  NAND_CLE := 0x02;
  NAND_ALE := 0x04;
  NAND_CTRL_CHANGE := 0x80;
  NAND_CMD_NONE := -1;
  NAND_ECC_READ := 0;
  NAND_ECC_WRITE := 1;
  ENODEV := 19;
  ENOMEM := 12;
  gpiod_get_value_cansleep := λ _, gpio_level;
  jz4780_bch_calculate := λ _ p _ _, (0, replicate (Z.to_nat (p_bytes p)) 0xff);
  jz4780_bch_correct := λ _ _ dat _, (2, dat);
  of_parse_phandle_bch := Some 7;
  jz4780_bch_get := λ np _, (0, Some np);
  MTD_MAX_ECCPOS_ENTRIES_LARGE := 640;
  MTD_MAX_OOBFREE_ENTRIES_LARGE := 32;
  devm_ioremap_resource := λ n, inl (0x1b000000 + n * 0x1000000);
  devm_kzalloc_ok := true;
  devm_gpiod_get_optional := λ rb, inl (if rb then Some 20 else None);
  gpiod_is_active_low := λ _, false;
  nand_scan_ident := λ st, (0, with_geometry geom st);
  nand_scan_tail := λ st, (0, st);
  mtd_device_parse_register := λ _, 0
|}.

(** Scenario 3 of the specification, and the same with a 128-byte OOB. *)
Definition geom_224 : geometry := Build_geometry NAND_ECC_HW 1024 24 4096 224.
Definition geom_128 : geometry := Build_geometry NAND_ECC_HW 1024 24 4096 128.
Definition geom_512 : geometry := Build_geometry NAND_ECC_NONE 512 4 2048 64.

(** A 16 KiB page with a 1280-byte OOB: 16 steps of 42 ECC bytes. *)
Definition geom_1280 : geometry := Build_geometry NAND_ECC_HW 1024 24 16384 1280.

(** Two banks, 1 and 3, in that order; no chip attached yet. *)
Definition two_banks : state :=
  Build_state
    (Build_controller None 2 [Build_cs 1 0x1b000000; Build_cs 3 0x1d000000])
    (@zeroed_chip (board 1 geom_224)) [].

(** The chip of bank 1 after the identification phase found [g]. *)
Definition identified (g : geometry) : state :=
  with_geometry g (set_nand (set_selected (-1) (nand two_banks)) two_banks).

(** Chip 0 selected, as [select_chip(0)] leaves the record. *)
Definition chip0_selected : state :=
  set_nand (set_selected 0 (nand two_banks)) two_banks.

(** The chip of bank 1 with a ready/busy line of polarity [low]. *)
Definition rb_wired (low : bool) : state :=
  let n := nand two_banks in
  set_nand
    (Build_chip (mtd n) (chip n) (ecclayout n) (Some 20) (wp_gpio n) low
       (wp_gpio_active_low n) (reading n) (selected n)) two_banks.

(** ** Probe: the controller and its chips *)

(** What the probe path needs beyond [Externals]: the errno of
    linux/errno.h it returns itself, the number of banks the NEMC exposes to
    the device, and whether the controller can be allocated. *)
Class ProbeExternals := {
  EINVAL : Z;
  jz4780_nemc_num_banks : Z;
  devm_kzalloc_nfc_ok : bool
}.

Section Probe.
Context {ext : Externals} {pext : ProbeExternals}.

(** The body of [for_each_child_of_node] in [jz4780_nand_init_chips], from
    chip number [i] on.  A child node is given by its "reg" property: the
    number [be32_to_cpu] reads from it, or [None] when there is no such
    property. *)
Fixpoint init_chips_from (children : list (option Z)) (i : Z) (st : state)
  : option (Z * state) :=
  match children with
  | [] => Some (0, st)
  | None :: _ => Some (- EINVAL, st)
  | Some reg :: rest =>
      c ← cs_at (nfc st) i;
      let st1 := set_nfc (Build_controller (bch (nfc st)) (num_banks (nfc st))
                            (<[Z.to_nat i := Build_cs (to_u32 reg) (base c)]>
                               (cs (nfc st)))) st in
      '(ret, st2) ← jz4780_nand_init_chip i st1;
      if negb (ret =? 0) then Some (ret, st2)
      else init_chips_from rest (i + 1) st2
  end.

Definition jz4780_nand_init_chips (children : list (option Z)) (st : state)
  : option (Z * state) :=
  let num_chips := Z.of_nat (length children) in
  if to_u32 num_chips >? num_banks (nfc st) then Some (- EINVAL, st)
  else init_chips_from children 0 st.

(** [jz4780_nand_probe] on a device with the given child nodes, [lg] being
    what happened before.  Returns the result, the events so far and the
    driver data of the platform device; until the first chip is allocated
    the chip slot of the state holds zeroes. *)
Definition jz4780_nand_probe (children : list (option Z)) (lg : list event)
  : option (Z * list event * option jz4780_nand_controller) :=
  let n := to_u32 jz4780_nemc_num_banks in
  if n =? 0 then Some (- ENODEV, lg, None)
  else if negb devm_kzalloc_nfc_ok then Some (- ENOMEM, lg, None)
  else
    let nfc0 := Build_controller None n (replicate (Z.to_nat n) (Build_cs 0 0)) in
    '(ret, st) ← jz4780_nand_init_chips children (Build_state nfc0 zeroed_chip lg);
    if negb (ret =? 0) then Some (ret, log st, None)
    else Some (0, log st, Some (nfc st)).

(** Neither phase of the framework's scan writes to the driver's table of
    banks. *)
Definition scans_keep_cs : Prop :=
  ∀ st, cs (nfc (nand_scan_ident st).2) = cs (nfc st) ∧
        cs (nfc (nand_scan_tail st).2) = cs (nfc st).

(** An early failure of [jz4780_nand_init_chip], after the window was
    mapped: no memory for the chip record, or one of the two GPIO lookups
    returning an error. *)
Definition early_failure (ret : Z) : Prop :=
  (devm_kzalloc_ok = false ∧ ret = - ENOMEM) ∨
  (devm_kzalloc_ok = true ∧ devm_gpiod_get_optional true = inr ret) ∨
  (devm_kzalloc_ok = true ∧ (∃ busy, devm_gpiod_get_optional true = inl busy) ∧
   devm_gpiod_get_optional false = inr ret).

(** [select_chip(n)], then the [cmd_ctrl] calls. *)
Definition select_then (n : Z) (calls : list (Z * Z)) (st : state) : option state :=
  st1 ← jz4780_nand_select_chip n st; cmd_ctrl_seq calls st1.

End Probe.

(** The three ECC hooks of the chip: which of them point to the driver. *)
Definition ecc_hooks (st : state) : bool * bool * bool :=
  (ecc_hwctl (ecc (chip (nand st))), ecc_calculate (ecc (chip (nand st))),
   ecc_correct (ecc (chip (nand st)))).

(** The three sub-windows of a bank window. *)
Definition windows (c : jz4780_nand_cs) : list Z :=
  [base c + OFFSET_DATA; base c + OFFSET_CMD; base c + OFFSET_ADDR].

(** A bus write of one byte into a sub-window of [c]; any other event. *)
Definition writes_within (c : jz4780_nand_cs) (e : event) : Prop :=
  match e with
  | EvWriteb v a => 0 <= v < 256 ∧ a ∈ windows c
  | _ => True
  end.

(** An event that deasserts no chip-enable line. *)
Definition no_deassert (e : event) : Prop :=
  match e with
  | EvNemcAssert _ false => False
  | _ => True
  end.

(** ** A platform with faults

    As [board], with the collaborators' results chosen one by one. *)
Record knobs := Build_knobs {
  k_phandle : option Z;
  k_bch_get : Z * option Z;
  k_ioremap : option Z;
  k_kzalloc : bool;
  k_rb : option Z + Z;
  k_wp : option Z + Z;
  k_ident : Z;
  k_tail : Z;
  k_register : Z;
  k_geom : geometry
}.

Definition lab (k : knobs) : Externals := {|
  NAND_NCE := 0x01;
  NAND_CLE := 0x02;
  NAND_ALE := 0x04;
  NAND_CTRL_CHANGE := 0x80;
  NAND_CMD_NONE := -1;
  NAND_ECC_READ := 0;
  NAND_ECC_WRITE := 1;
  ENODEV := 19;
  ENOMEM := 12;
  gpiod_get_value_cansleep := λ _, 1;
  jz4780_bch_calculate := λ _ p _ _, (0, replicate (Z.to_nat (p_bytes p)) 0xff);
  jz4780_bch_correct := λ _ _ dat _, (2, dat);
  of_parse_phandle_bch := k_phandle k;
  jz4780_bch_get := λ _ _, k_bch_get k;
  MTD_MAX_ECCPOS_ENTRIES_LARGE := 640;
  MTD_MAX_OOBFREE_ENTRIES_LARGE := 32;
  devm_ioremap_resource := λ n,
    match k_ioremap k with
    | Some e => inr e
    | None => inl (0x1b000000 + n * 0x1000000)
    end;
  devm_kzalloc_ok := k_kzalloc k;
  devm_gpiod_get_optional := λ rb, if rb then k_rb k else k_wp k;
  gpiod_is_active_low := λ _, true;
  nand_scan_ident := λ st, (k_ident k, with_geometry (k_geom k) st);
  nand_scan_tail := λ st, (k_tail k, st);
  mtd_device_parse_register := λ _, k_register k
|}.

(** Everything succeeds; a ready/busy line, no write-protect line. *)
Definition all_good : knobs :=
  Build_knobs (Some 7) (0, Some 7) None true (inl (Some 20)) (inl None) 0 0 0 geom_224.

Definition no_bch_node : knobs :=
  Build_knobs None (0, Some 7) None true (inl (Some 20)) (inl None) 0 0 0 geom_224.

Definition bch_get_defers : knobs :=
  Build_knobs (Some 7) (-517, None) None true (inl (Some 20)) (inl None) 0 0 0 geom_224.

Definition ioremap_fails : knobs :=
  Build_knobs (Some 7) (0, Some 7) (Some (-16)) true (inl (Some 20)) (inl None) 0 0 0
    geom_224.

Definition wp_fails : knobs :=
  Build_knobs (Some 7) (0, Some 7) None true (inl None) (inr (-2)) 0 0 0 geom_224.

Definition tail_fails : knobs :=
  Build_knobs (Some 7) (0, Some 7) None true (inl (Some 20)) (inl None) 0 (-22) 0 geom_224.

Definition register_fails : knobs :=
  Build_knobs (Some 7) (0, Some 7) None true (inl (Some 20)) (inl None) 0 0 (-5) geom_224.

Definition soft_geom : geometry := Build_geometry NAND_ECC_SOFT_BCH 512 4 2048 64.
Definition raw_geom : geometry := Build_geometry NAND_ECC_NONE 1024 0 4096 224.
Definition no_step_geom : geometry := Build_geometry NAND_ECC_NONE 0 0 4096 224.

(** A device exposing [n] banks. *)
Definition banks (n : Z) : ProbeExternals := {|
  EINVAL := 22;
  jz4780_nemc_num_banks := n;
  devm_kzalloc_nfc_ok := true
|}.

(** The state [jz4780_nand_init_ecc] leaves, [st] itself where it has no
    result. *)
Definition after_init_ecc `{Externals} (st : state) : state :=
  from_option snd st (jz4780_nand_init_ecc st).

(** [identified g] once the BCH engine was acquired. *)
Definition with_bch (g : geometry) : state :=
  set_nfc (Build_controller (Some 7) 2 (cs (nfc two_banks))) (identified g).

Example init_ecc_scenario_3 :
  (λ r, (r.1, eccbytes (ecclayout (nand r.2)),
         take 2 (eccpos (ecclayout (nand r.2))),
         oobfree (ecclayout (nand r.2)) !! 0%nat))
    <$> @jz4780_nand_init_ecc (board 1 geom_224) (identified geom_224)
  = Some (0, 168, [56; 57], Some (Build_oobfree 2 54)).
Proof. vm_compute. reflexivity. Qed.

(** * Properties *)

Section Hooks.
Context {ext : Externals}.

Lemma cs_at_nonneg (c : jz4780_nand_controller) (i : Z) (x : jz4780_nand_cs) :
  cs_at c i = Some x → 0 <= i.
Proof. unfold cs_at. destruct (Z.ltb_spec i 0); [discriminate | lia]. Qed.

Lemma selected_not_negative (st : state) (x : jz4780_nand_cs) :
  cs_at (nfc st) (selected (nand st)) = Some x →
  (selected (nand st) <? 0) = false.
Proof. intros Hc. apply cs_at_nonneg in Hc. apply Z.ltb_ge. exact Hc. Qed.

(** C1. A [cmd_ctrl] call with [NAND_CTRL_CHANGE] on a selected chip leaves
    the write pointer at one of the three sub-windows of that chip's bank:
    ADDR when [NAND_ALE] is set, else CMD when [NAND_CLE] is set, else DATA.
    The chip-enable change is issued next, and a byte, if the call carries
    one, is written after both, at the new pointer. *)
Theorem cmd_ctrl_change_selects_window (cmd ctrl : Z) (st : state)
    (c : jz4780_nand_cs) :
  cs_at (nfc st) (selected (nand st)) = Some c →
  has_flag ctrl NAND_CTRL_CHANGE = true →
  ∃ st', jz4780_nand_cmd_ctrl cmd ctrl st = Some st' ∧
    let w := IO_ADDR_W (chip (nand st')) in
    w ∈ [base c; base c + 0x400000; base c + 0x800000] ∧
    w = (if has_flag ctrl NAND_ALE then base c + 0x800000
         else if has_flag ctrl NAND_CLE then base c + 0x400000
         else base c) ∧
    log st' = log st ++
      EvNemcAssert (bank c) (has_flag ctrl NAND_NCE)
      :: (if cmd =? NAND_CMD_NONE then [] else [EvWriteb (to_u8 cmd) w]).
Proof.
  intros Hc Hchange. unfold jz4780_nand_cmd_ctrl.
  rewrite (selected_not_negative _ _ Hc), Hchange, Hc. simpl.
  unfold OFFSET_ADDR, OFFSET_CMD, OFFSET_DATA.
  destruct (cmd =? NAND_CMD_NONE);
    destruct (has_flag ctrl NAND_ALE), (has_flag ctrl NAND_CLE);
    eexists; (split; [reflexivity |]); simpl;
    rewrite ?Z.add_0_r, <- ?app_assoc; simpl;
    (split; [set_solver | split; reflexivity]).
Qed.

(** C8. With no chip selected, [cmd_ctrl] only warns: whatever byte and
    control bits it is given, it returns, writes no byte, changes no
    chip-enable line and leaves the chip record, so also the write pointer,
    and the controller as they were. *)
Theorem cmd_ctrl_unselected_is_noop (cmd ctrl : Z) (st : state) :
  selected (nand st) < 0 →
  ∃ st', jz4780_nand_cmd_ctrl cmd ctrl st = Some st' ∧
    log st' = log st ++ [EvWarn] ∧
    nand st' = nand st ∧
    nfc st' = nfc st ∧
    IO_ADDR_W (chip (nand st')) = IO_ADDR_W (chip (nand st)) ∧
    nemc_asserted (log st') = nemc_asserted (log st).
Proof.
  intros Hneg. unfold jz4780_nand_cmd_ctrl.
  destruct (Z.ltb_spec (selected (nand st)) 0) as [_ | Hge]; [| lia].
  eexists. split; [reflexivity |]. simpl.
  repeat split. unfold nemc_asserted. rewrite foldl_snoc. reflexivity.
Qed.

(** C9. [select_chip(n)] with a chip index [n] points the read and the
    write pointer at the DATA sub-window (offset 0) of the bank window of
    chip [n] and records [n]; it calls nothing outside (no chip-enable
    change) and leaves every other field of the chip record and the
    controller alone. *)
Theorem select_chip_points_at_data_window (n : Z) (st : state)
    (c : jz4780_nand_cs) :
  n ≠ -1 →
  cs_at (nfc st) n = Some c →
  ∃ st', jz4780_nand_select_chip n st = Some st' ∧
    IO_ADDR_R (chip (nand st')) = base c ∧
    IO_ADDR_W (chip (nand st')) = base c ∧
    selected (nand st') = n ∧
    log st' = log st ∧
    nfc st' = nfc st ∧
    nand st' =
      set_selected n
        (set_chip (set_IO_ADDR_W (base c + OFFSET_DATA)
                     (set_IO_ADDR_R (base c + OFFSET_DATA) (chip (nand st))))
           (nand st)) ∧
    (mtd (nand st'), ecclayout (nand st'), busy_gpio (nand st'), wp_gpio (nand st'),
     busy_gpio_active_low (nand st'), wp_gpio_active_low (nand st'),
     reading (nand st'))
    = (mtd (nand st), ecclayout (nand st), busy_gpio (nand st), wp_gpio (nand st),
       busy_gpio_active_low (nand st), wp_gpio_active_low (nand st),
       reading (nand st)) ∧
    (chip_delay (chip (nand st')), dev_ready (chip (nand st')),
     select_chip (chip (nand st')), cmd_ctrl (chip (nand st')),
     ecc (chip (nand st')))
    = (chip_delay (chip (nand st)), dev_ready (chip (nand st)),
       select_chip (chip (nand st)), cmd_ctrl (chip (nand st)),
       ecc (chip (nand st))).
Proof.
  intros Hn Hc. unfold jz4780_nand_select_chip.
  destruct (Z.eqb_spec n (-1)) as [-> | _]; [done |].
  rewrite Hc. simpl. eexists. split; [reflexivity |]. simpl.
  unfold OFFSET_DATA. rewrite Z.add_0_r. repeat split.
Qed.

End Hooks.

Section ChipEnable.
Context {ext : Externals}.

Lemma nemc_step_only_bank (b : Z) (s : gset Z) (e : event) :
  only_bank b e → s ⊆ {[b]} → nemc_step s e ⊆ {[b]}.
Proof.
  destruct e as [| b' [] | | | | | | |]; simpl; intros Hb Hs; try done.
  - subst b'. set_solver.
  - set_solver.
Qed.

Lemma nemc_fold_only_bank (b : Z) (l : list event) :
  Forall (only_bank b) l →
  ∀ s : gset Z, s ⊆ {[b]} → foldl nemc_step s l ⊆ {[b]}.
Proof.
  induction 1 as [| e l He _ IH]; intros s Hs; simpl; [exact Hs |].
  apply IH, nemc_step_only_bank; assumption.
Qed.

Lemma nemc_asserted_app (l1 l2 : list event) :
  nemc_asserted (l1 ++ l2) = foldl nemc_step (nemc_asserted l1) l2.
Proof. unfold nemc_asserted. apply foldl_app. Qed.

(** Selecting a chip index records it and calls nothing outside. *)
Lemma select_chip_records_index (n : Z) (st : state) (c : jz4780_nand_cs) :
  n ≠ -1 →
  cs_at (nfc st) n = Some c →
  ∃ st', jz4780_nand_select_chip n st = Some st' ∧
    selected (nand st') = n ∧ log st' = log st ∧ nfc st' = nfc st.
Proof.
  intros Hn Hc. unfold jz4780_nand_select_chip.
  destruct (Z.eqb_spec n (-1)) as [-> | _]; [done |].
  rewrite Hc. simpl. eexists. repeat split.
Qed.

(** What one [cmd_ctrl] call does while chip [c] is selected. *)
Lemma cmd_ctrl_selected_step (cmd ctrl : Z) (st : state) (c : jz4780_nand_cs) :
  cs_at (nfc st) (selected (nand st)) = Some c →
  ∃ st' l, jz4780_nand_cmd_ctrl cmd ctrl st = Some st' ∧
    log st' = log st ++ l ∧
    Forall (only_bank (bank c)) l ∧
    selected (nand st') = selected (nand st) ∧
    nfc st' = nfc st.
Proof.
  intros Hc. unfold jz4780_nand_cmd_ctrl.
  rewrite (selected_not_negative _ _ Hc).
  destruct (has_flag ctrl NAND_CTRL_CHANGE); [rewrite Hc |]; simpl;
    destruct (cmd =? NAND_CMD_NONE); simpl; eexists; eexists;
    (split; [reflexivity |]); simpl; rewrite <- ?app_assoc;
    (split; [first [reflexivity | symmetry; apply app_nil_r] |]);
    repeat constructor.
Qed.

Lemma cmd_ctrl_seq_selected (calls : list (Z * Z)) :
  ∀ (st : state) (c : jz4780_nand_cs),
    cs_at (nfc st) (selected (nand st)) = Some c →
    ∃ st' l, cmd_ctrl_seq calls st = Some st' ∧
      log st' = log st ++ l ∧
      Forall (only_bank (bank c)) l ∧
      selected (nand st') = selected (nand st) ∧
      nfc st' = nfc st.
Proof.
  induction calls as [| [cmd ctrl] rest IH]; intros st c Hc; simpl.
  - exists st, []. rewrite app_nil_r. repeat split. constructor.
  - destruct (cmd_ctrl_selected_step cmd ctrl st c Hc)
      as (st1 & l1 & -> & Hl1 & Hb1 & Hs1 & Hn1). simpl.
    assert (Hc1 : cs_at (nfc st1) (selected (nand st1)) = Some c)
      by (rewrite Hs1, Hn1; exact Hc).
    destruct (IH st1 c Hc1) as (st2 & l2 & -> & Hl2 & Hb2 & Hs2 & Hn2).
    exists st2, (l1 ++ l2). split; [reflexivity |].
    rewrite Hl2, Hl1, <- app_assoc. split; [reflexivity |].
    split; [apply Forall_app; split; assumption |].
    split; congruence.
Qed.

(** C5. A session [select_chip(a)], any [cmd_ctrl] calls, [select_chip(-1)]
    on a chip index [a], begun while no bank other than that of chip [a] is
    asserted, runs to its end; at every point of it (after every event the
    session has issued so far) no bank but that of chip [a] is asserted;
    every chip-enable change it issues is on that bank and its last event
    deasserts it, so that none is asserted afterwards; and the selected
    index ends as [-1]. *)
Theorem session_asserts_one_bank (a : Z) (calls : list (Z * Z)) (st : state)
    (c : jz4780_nand_cs) :
  a ≠ -1 →
  cs_at (nfc st) a = Some c →
  nemc_asserted (log st) ⊆ {[bank c]} →
  ∃ st', select_session a calls st = Some st' ∧
    (∀ l1 l2, log st' = log st ++ l1 ++ l2 →
              nemc_asserted (log st ++ l1) ⊆ {[bank c]}) ∧
    (∃ l, log st' = log st ++ l ++ [EvNemcAssert (bank c) false] ∧
          Forall (only_bank (bank c)) l) ∧
    nemc_asserted (log st') = ∅ ∧
    selected (nand st') = -1.
Proof.
  intros Ha Hc Hinit. unfold select_session.
  destruct (select_chip_records_index a st c Ha Hc)
    as (st1 & -> & Hs1 & Hl1 & Hn1). simpl.
  assert (Hc1 : cs_at (nfc st1) (selected (nand st1)) = Some c)
    by (rewrite Hs1, Hn1; exact Hc).
  destruct (cmd_ctrl_seq_selected calls st1 c Hc1)
    as (st2 & l & -> & Hl2 & Hb & Hs2 & Hn2). simpl.
  assert (Hc2 : cs_at (nfc st2) (selected (nand st2)) = Some c)
    by (rewrite Hs2, Hn2; exact Hc1).
  unfold jz4780_nand_select_chip. simpl.
  pose proof (cs_at_nonneg _ _ _ Hc2) as Hge.
  apply Z.leb_le in Hge. rewrite Hge, Hc2. simpl.
  eexists. split; [reflexivity |]. simpl.
  rewrite Hl2, Hl1, <- app_assoc.
  assert (Hall : Forall (only_bank (bank c)) (l ++ [EvNemcAssert (bank c) false])).
  { apply Forall_app. split; [exact Hb |]. repeat constructor. }
  split; [| split; [| split]].
  - intros l1 l2 Heq. apply app_inv_head in Heq.
    rewrite nemc_asserted_app. apply nemc_fold_only_bank; [| exact Hinit].
    rewrite Heq in Hall. apply Forall_app in Hall. apply Hall.
  - exists l. split; [reflexivity | exact Hb].
  - rewrite app_assoc, nemc_asserted_app. simpl.
    assert (nemc_asserted (log st ++ l) ⊆ {[bank c]}) as Hsub.
    { rewrite nemc_asserted_app. apply nemc_fold_only_bank; assumption. }
    set_solver.
  - reflexivity.
Qed.

End ChipEnable.

Section ReadyAndEcc.
Context {ext : Externals}.

(** C6 (as the code has it). With a ready/busy GPIO wired, [dev_ready]
    returns the logical negation of (GPIO value XOR active-low flag): 1
    exactly when the value read equals the flag, 0 otherwise; for a value in
    {0, 1} that is the XOR flipped once more. *)
Theorem dev_ready_negates_xor (st : state) (g : Z) :
  busy_gpio (nand st) = Some g →
  let v := gpiod_get_value_cansleep (Some g) in
  let low := Z.b2z (busy_gpio_active_low (nand st)) in
  jz4780_nand_dev_ready st = Z.b2z (bool_decide (v = low)) ∧
  (jz4780_nand_dev_ready st ≠ 0 ↔ Z.lxor v low = 0) ∧
  (0 <= v <= 1 → jz4780_nand_dev_ready st = Z.lxor (Z.lxor v low) 1).
Proof.
  intros Hg v low. unfold jz4780_nand_dev_ready. rewrite Hg. fold v low.
  destruct (Z.eqb_spec (Z.lxor v low) 0) as [Hx | Hx].
  - pose proof Hx as Heq. apply Z.lxor_eq in Heq.
    rewrite bool_decide_true by exact Heq.
    split; [reflexivity |]. split; [split; [done | lia] |].
    intros _. rewrite Hx. reflexivity.
  - assert (v ≠ low) as Hne by (intros ->; apply Hx, Z.lxor_nilpotent).
    rewrite bool_decide_false by exact Hne.
    split; [reflexivity |]. split; [split; [done | intros E; contradiction] |].
    intros Hv. subst low.
    destruct (busy_gpio_active_low (nand st)); simpl in *;
      assert (v = 0 ∨ v = 1) as [-> | ->] by lia; done.
Qed.

(** C7. After [hwctl(NAND_ECC_READ)], [calculate] returns 0, leaves
    [ecc_code] alone and does not call the BCH engine.  After
    [hwctl(NAND_ECC_WRITE)] it calls the engine's calculate exactly once,
    with the chip's size, bytes and strength and the data buffer, and
    returns the engine's result and ECC bytes unchanged. *)
Theorem calculate_follows_reading_flag (dat ecc_code : list Z) (st : state) :
  NAND_ECC_WRITE ≠ NAND_ECC_READ →
  let st_r := jz4780_nand_ecc_hwctl NAND_ECC_READ st in
  let st_w := jz4780_nand_ecc_hwctl NAND_ECC_WRITE st in
  let e := ecc (chip (nand st)) in
  let params := Build_bch_params (ecc_size e) (ecc_bytes e) (ecc_strength e) in
  let engine := jz4780_bch_calculate (bch (nfc st)) params dat ecc_code in
  reading (nand st_r) = true ∧
  jz4780_nand_ecc_calculate dat ecc_code st_r = (0, ecc_code, st_r) ∧
  reading (nand st_w) = false ∧
  (∃ st', jz4780_nand_ecc_calculate dat ecc_code st_w = (engine.1, engine.2, st') ∧
     log st' = log st ++ [EvBchCalculate (bch (nfc st)) params dat] ∧
     bch_calculate_calls (log st') = S (bch_calculate_calls (log st)) ∧
     nand st' = nand st_w ∧ nfc st' = nfc st).
Proof.
  intros Hne st_r st_w e params engine.
  unfold jz4780_nand_ecc_calculate, jz4780_nand_ecc_hwctl in *. simpl.
  rewrite Z.eqb_refl.
  destruct (Z.eqb_spec NAND_ECC_WRITE NAND_ECC_READ) as [? | _]; [done |].
  repeat split.
  unfold bch_params_of. simpl. fold e params engine.
  destruct engine as [ret out]. simpl.
  eexists. split; [reflexivity |]. simpl. repeat split.
  unfold bch_calculate_calls. rewrite List.filter_app, length_app. simpl. lia.
Qed.

(** C10. [correct] does not look at [calc_ecc]: with the same chip state,
    data buffer and [read_ecc], two calls return the same result, leave the
    same data buffer and the same state, whatever the two [calc_ecc]
    buffers hold; what reaches the BCH engine is the chip's ECC parameters,
    the data buffer and [read_ecc]. *)
Theorem correct_ignores_calc_ecc (dat read_ecc calc_ecc1 calc_ecc2 : list Z)
    (st : state) :
  jz4780_nand_ecc_correct dat read_ecc calc_ecc1 st
  = jz4780_nand_ecc_correct dat read_ecc calc_ecc2 st ∧
  (jz4780_nand_ecc_correct dat read_ecc calc_ecc1 st).1
  = jz4780_bch_correct (bch (nfc st)) (bch_params_of st) dat read_ecc ∧
  log (jz4780_nand_ecc_correct dat read_ecc calc_ecc1 st).2
  = log st ++ [EvBchCorrect (bch (nfc st)) (bch_params_of st) dat read_ecc].
Proof.
  unfold jz4780_nand_ecc_correct.
  destruct (jz4780_bch_correct (bch (nfc st)) (bch_params_of st) dat read_ecc)
    as [ret out].
  repeat split.
Qed.

End ReadyAndEcc.

(** ** 32-bit arithmetic and the highest set bit *)

Lemma to_u32_small (z : Z) : 0 <= z < 2 ^ 32 → to_u32 z = z.
Proof. intros Hz. unfold to_u32. apply Z.mod_small. exact Hz. Qed.

Lemma to_u32_range (z : Z) : 0 <= to_u32 z < 2 ^ 32.
Proof. unfold to_u32. apply Z.mod_pos_bound. lia. Qed.

Lemma to_int_small (z : Z) : - 2 ^ 31 <= z < 2 ^ 31 → to_int z = z.
Proof. intros Hz. unfold to_int. rewrite Z.mod_small; lia. Qed.

Lemma fls_highest_bit (x : Z) :
  0 < x < 2 ^ 32 → fls x = highest_bit_index x.
Proof.
  intros Hx. unfold fls, highest_bit_index. cbv zeta.
  rewrite to_u32_small by lia.
  destruct (Z.eqb_spec x 0); [lia | reflexivity].
Qed.

Lemma highest_bit_index_range (x : Z) :
  0 < x < 2 ^ 32 → 1 <= highest_bit_index x <= 32.
Proof.
  intros Hx. unfold highest_bit_index.
  pose proof (Z.log2_nonneg x).
  assert (Z.log2 x < 32) by (apply Z.log2_lt_pow2; lia).
  lia.
Qed.

(** Line 186 without overflow: the product divided by 8, rounded down. *)
Lemma ecc_bytes_of_floor (size strength : Z) :
  0 <= size < 2 ^ 28 →
  0 <= strength →
  strength * highest_bit_index (1 + 8 * size) < 2 ^ 31 →
  ecc_bytes_of size strength
  = strength * highest_bit_index (1 + 8 * size) / 8.
Proof.
  intros Hs Hst Hprod. unfold ecc_bytes_of.
  rewrite (to_int_small (8 * size)) by lia.
  rewrite (to_int_small (1 + 8 * size)) by lia.
  rewrite fls_highest_bit by lia.
  pose proof (highest_bit_index_range (1 + 8 * size) ltac:(lia)) as Hh.
  rewrite Z.mul_comm.
  rewrite to_int_small by nia.
  apply Z.quot_div_nonneg; nia.
Qed.

Lemma ecc_bytes_of_upper (size strength : Z) :
  ecc_bytes_of size strength < 2 ^ 28.
Proof.
  unfold ecc_bytes_of. set (p := to_int _).
  assert (p <= 2 ^ 31 - 1) as Hp.
  { subst p. unfold to_int.
    match goal with |- ?a mod _ - _ <= _ =>
      pose proof (Z.mod_pos_bound a (2 ^ 32) ltac:(lia)) end. lia. }
  pose proof (Z.quot_le_mono p (2 ^ 31 - 1) 8 ltac:(lia) Hp) as Hq.
  change (Z.quot (2 ^ 31 - 1) 8) with 268435455 in Hq. lia.
Qed.

(** Rounding down and rounding up agree exactly on the multiples of 8. *)
Lemma floor_is_ceil_iff (a : Z) : a / 8 = ceil_div a 8 ↔ a mod 8 = 0.
Proof.
  unfold ceil_div.
  pose proof (Z.div_mod a 8 ltac:(lia)) as Ha.
  pose proof (Z.mod_pos_bound a 8 ltac:(lia)) as Hm.
  pose proof (Z.div_mod (a + 8 - 1) 8 ltac:(lia)) as Hb.
  pose proof (Z.mod_pos_bound (a + 8 - 1) 8 ltac:(lia)) as Hn.
  lia.
Qed.

(** ** The layout loop *)

Lemma store_at_inside {A} (i : Z) (v : A) (a : list A) :
  0 <= i < Z.of_nat (length a) →
  store_at i v a = Some (<[Z.to_nat i := v]> a).
Proof.
  intros Hi. unfold store_at.
  destruct (Z.leb_spec 0 i); [| lia].
  destruct (Z.ltb_spec i (Z.of_nat (length a))); [reflexivity | lia].
Qed.

Lemma fill_eccpos_spec (start : Z) (n : nat) :
  ∀ (i : Z) (pos : list Z),
    0 <= i →
    (Z.to_nat i + n ≤ length pos)%nat →
    ∃ pos', fill_eccpos n i start pos = Some pos' ∧
      length pos' = length pos ∧
      (∀ k, i <= k < i + Z.of_nat n →
            pos' !! Z.to_nat k = Some (to_u32 (start + k))) ∧
      (∀ k : nat, (k < Z.to_nat i ∨ Z.to_nat i + n ≤ k)%nat →
                  pos' !! k = pos !! k).
Proof.
  induction n as [| n IH]; intros i pos Hi Hlen; simpl.
  - exists pos. split; [reflexivity |]. split; [reflexivity |].
    split; [intros k Hk; lia | reflexivity].
  - rewrite store_at_inside by lia. simpl.
    assert (Z.to_nat (i + 1) + n
            ≤ length (<[Z.to_nat i := to_u32 (start + i)]> pos))%nat as Hlen'
      by (rewrite length_insert; lia).
    destruct (IH (i + 1) _ ltac:(lia) Hlen') as (pos' & -> & Hl & Hin & Hout).
    exists pos'. split; [reflexivity |].
    rewrite length_insert in Hl. split; [exact Hl |]. split.
    + intros k Hk. destruct (Z.eq_dec k i) as [-> | Hne].
      * rewrite Hout by lia. apply list_lookup_insert_eq. lia.
      * apply Hin. lia.
    + intros k Hk. rewrite Hout by lia. apply list_lookup_insert_ne. lia.
Qed.

(** ** ECC initialisation *)

Section EccInit.
Context {ext : Externals}.

(** What the BCH part leaves alone, whichever way it ends. *)
Lemma init_ecc_bch_keeps (st : state) :
  let st' := match init_ecc_bch st with inl s => s | inr r => r.2 end in
  mtd (nand st') = mtd (nand st) ∧
  ecclayout (nand st') = ecclayout (nand st) ∧
  log st' = log st ∧
  (ecc_mode (ecc (chip (nand st'))), ecc_size (ecc (chip (nand st'))),
   ecc_bytes (ecc (chip (nand st'))), ecc_strength (ecc (chip (nand st'))),
   ecc_layout (ecc (chip (nand st'))))
  = (ecc_mode (ecc (chip (nand st))), ecc_size (ecc (chip (nand st))),
     ecc_bytes (ecc (chip (nand st))), ecc_strength (ecc (chip (nand st))),
     ecc_layout (ecc (chip (nand st)))).
Proof.
  unfold init_ecc_bch.
  destruct (decide _); [| done].
  destruct (bch (nfc st)); [done |].
  destruct of_parse_phandle_bch; [| done].
  destruct (jz4780_bch_get _ _) as [ret h].
  destruct (ret =? 0); done.
Qed.

Lemma init_ecc_bch_continues (st : state) :
  (ecc_mode (ecc (chip (nand st))) = NAND_ECC_HW → bch_ready st) →
  ∃ st', init_ecc_bch st = inl st'.
Proof.
  intros Hready. unfold init_ecc_bch.
  destruct (decide _) as [Hhw | _]; [| eauto].
  destruct (Hready Hhw) as [[h Hh] | (np & h & Hnp & Hget)].
  - rewrite Hh. eauto.
  - destruct (bch (nfc st)); [eauto |].
    rewrite Hnp, Hget. simpl. eauto.
Qed.

Lemma init_ecc_layout_spec (st : state) :
  let e := ecc (chip (nand st)) in
  let n := to_u32 (to_u32 (writesize (mtd (nand st))) / to_u32 (ecc_size e)
                   * to_u32 (ecc_bytes e)) in
  let oob := to_u32 (oobsize (mtd (nand st))) in
  ecc_mode e ≠ NAND_ECC_SOFT →
  ecc_mode e ≠ NAND_ECC_SOFT_BCH →
  to_u32 (ecc_size e) ≠ 0 →
  (Z.to_nat n ≤ length (eccpos (ecclayout (nand st))))%nat →
  (0 < length (oobfree (ecclayout (nand st))))%nat →
  ∃ st', init_ecc_layout st = Some (0, st') ∧
    (ecc_mode (ecc (chip (nand st'))), ecc_size (ecc (chip (nand st'))),
     ecc_bytes (ecc (chip (nand st'))), ecc_strength (ecc (chip (nand st'))))
    = (ecc_mode e, ecc_size e, ecc_bytes e, ecc_strength e) ∧
    ecc_layout (ecc (chip (nand st'))) = true ∧
    mtd (nand st') = mtd (nand st) ∧
    log st' = log st ∧
    eccbytes (ecclayout (nand st')) = n ∧
    (∀ i, 0 <= i < n →
          eccpos (ecclayout (nand st')) !! Z.to_nat i
          = Some (to_u32 (to_u32 (oob - n) + i))) ∧
    oobfree (ecclayout (nand st'))
    = <[0%nat := Build_oobfree 2 (to_u32 (oob - n - 2))]>
        (oobfree (ecclayout (nand st))).
Proof.
  intros e n oob Hsoft Hsbch Hsz Hpos Hfree.
  unfold init_ecc_layout. cbv zeta. fold e.
  destruct (decide _) as [[? | ?] | _]; [done | done |].
  destruct (Z.eqb_spec (to_u32 (ecc_size e)) 0) as [? | _]; [done |].
  fold n oob.
  destruct (fill_eccpos_spec (to_u32 (oob - n)) (Z.to_nat n) 0
              (eccpos (ecclayout (nand st))) ltac:(lia) ltac:(lia))
    as (pos & -> & _ & Hin & _). simpl.
  rewrite store_at_inside by lia. simpl.
  eexists. split; [reflexivity |]. simpl. repeat split.
  intros i Hi. apply Hin. lia.
Qed.

(** On the layout path [jz4780_nand_init_ecc] succeeds, and this is the
    layout it leaves, every value as the 32-bit arithmetic gives it. *)
Lemma init_ecc_layout_path (st : state) :
  let e := ecc (chip (nand st)) in
  let n := layout_eccbytes st in
  let oob := to_u32 (oobsize (mtd (nand st))) in
  ¬ layout_skipped st →
  (ecc_mode e = NAND_ECC_HW → bch_ready st) →
  layout_fits st →
  ∃ st', jz4780_nand_init_ecc st = Some (0, st') ∧
    ecc_bytes (ecc (chip (nand st'))) = ecc_bytes_of (ecc_size e) (ecc_strength e) ∧
    ecc_layout (ecc (chip (nand st'))) = true ∧
    eccbytes (ecclayout (nand st')) = n ∧
    (∀ i, 0 <= i < n →
          eccpos (ecclayout (nand st')) !! Z.to_nat i
          = Some (to_u32 (to_u32 (oob - n) + i))) ∧
    oobfree (ecclayout (nand st'))
    = <[0%nat := Build_oobfree 2 (to_u32 (oob - n - 2))]>
        (oobfree (ecclayout (nand st))).
Proof.
  intros e n oob Hskip Hready (Hsz & Hpos & Hfree).
  unfold jz4780_nand_init_ecc. cbv zeta. fold e.
  set (st1 := set_ecc_of _ st).
  destruct (init_ecc_bch_continues st1) as (st2 & Hbch); [exact Hready |].
  pose proof (init_ecc_bch_keeps st1) as Hkeep. rewrite Hbch in *.
  cbv zeta in Hkeep. destruct Hkeep as (Hmtd & Hlay & _ & Hecc).
  simpl in Hmtd, Hlay, Hecc. fold e in Hecc.
  injection Hecc as Hm Hs Hb Ht _.
  destruct (init_ecc_layout_spec st2) as (st' & -> & Hecc' & Hl' & _ & _ & Hn & Hp & Hf).
  - rewrite Hm. intros ?. apply Hskip. left. assumption.
  - rewrite Hm. intros ?. apply Hskip. right. assumption.
  - rewrite Hs. exact Hsz.
  - rewrite Hmtd, Hs, Hb, Hlay. exact Hpos.
  - rewrite Hlay. exact Hfree.
  - injection Hecc' as _ _ Hb' _.
    rewrite Hmtd, Hs, Hb in Hn, Hp, Hf. rewrite Hlay in Hf.
    exists st'. split; [reflexivity |]. rewrite Hb', Hb. repeat split; assumption.
Qed.

(** Whichever way [jz4780_nand_init_ecc] returns, the byte count of its
    first statement is what the chip's ECC parameters hold. *)
Lemma init_ecc_stores_bytes (st : state) :
  let e := ecc (chip (nand st)) in
  layout_skipped st ∨ layout_fits st →
  ∃ ret st', jz4780_nand_init_ecc st = Some (ret, st') ∧
    ecc_bytes (ecc (chip (nand st'))) = ecc_bytes_of (ecc_size e) (ecc_strength e).
Proof.
  intros e Hdef.
  unfold jz4780_nand_init_ecc. cbv zeta. fold e.
  set (st1 := set_ecc_of _ st).
  pose proof (init_ecc_bch_keeps st1) as Hkeep.
  destruct (init_ecc_bch st1) as [st2 | [ret st2]] eqn:Hbch;
    cbv zeta in Hkeep; destruct Hkeep as (Hmtd & Hlay & _ & Hecc);
    simpl in Hmtd, Hlay, Hecc; fold e in Hecc; injection Hecc as Hm Hs Hb Ht _.
  - destruct (decide (layout_skipped st)) as [Hskip | Hskip].
    + unfold init_ecc_layout. cbv zeta. rewrite Hm.
      rewrite decide_True by exact Hskip. eauto.
    + destruct Hdef as [? | (Hsz & Hpos & Hfree)]; [done |].
      destruct (init_ecc_layout_spec st2) as (st' & -> & Hecc' & _).
      * rewrite Hm. intros ?. apply Hskip. left. assumption.
      * rewrite Hm. intros ?. apply Hskip. right. assumption.
      * rewrite Hs. exact Hsz.
      * rewrite Hmtd, Hs, Hb, Hlay. exact Hpos.
      * rewrite Hlay. exact Hfree.
      * injection Hecc' as _ _ Hb' _. exists 0, st'. split; [reflexivity |]. congruence.
  - exists ret, st2. split; [reflexivity | exact Hb].
Qed.

(** C2 (as the code has it). The byte count [jz4780_nand_init_ecc] stores
    is [strength * highest_bit_index(1 + 8*step_size)] divided by 8 and
    rounded down; it is the rounded-up value of the specification's formula
    exactly when that product is a multiple of 8. *)
Theorem init_ecc_bytes_round_down (st : state) :
  let size := ecc_size (ecc (chip (nand st))) in
  let strength := ecc_strength (ecc (chip (nand st))) in
  let bits := strength * highest_bit_index (1 + 8 * size) in
  0 <= size < 2 ^ 28 →
  0 <= strength →
  bits < 2 ^ 31 →
  layout_skipped st ∨ layout_fits st →
  ∃ ret st', jz4780_nand_init_ecc st = Some (ret, st') ∧
    ecc_bytes (ecc (chip (nand st'))) = bits / 8 ∧
    (ecc_bytes (ecc (chip (nand st'))) = spec_ecc_bytes_per_step size strength
     ↔ bits mod 8 = 0).
Proof.
  intros size strength bits Hsize Hstrength Hbits Hdef.
  destruct (init_ecc_stores_bytes st Hdef) as (ret & st' & Hrun & Hbytes).
  exists ret, st'. split; [exact Hrun |].
  rewrite Hbytes. fold size strength.
  rewrite ecc_bytes_of_floor by assumption. fold bits.
  split; [reflexivity |]. unfold spec_ecc_bytes_per_step. fold bits.
  apply floor_is_ceil_iff.
Qed.

(** X27. For a hardware or raw ECC configuration with
    [total_ecc_bytes + 2 <= oob_size] whose [total_ecc_bytes] positions fit
    the [eccpos] array of the layout (and, in hardware mode, with the BCH
    engine at hand), [jz4780_nand_init_ecc] succeeds and leaves this
    layout: [eccbytes] is [total_ecc_bytes]; the ECC positions are the last
    [total_ecc_bytes] offsets of the OOB area, in order; entry 0 of
    [oobfree], the only one written, is offset 2 and length
    [oob_size - total_ecc_bytes - 2]; and no ECC position lies in that free
    region. *)
Theorem init_ecc_layout_right_aligned (st : state) :
  let e := ecc (chip (nand st)) in
  let ws := writesize (mtd (nand st)) in
  let oob := oobsize (mtd (nand st)) in
  let total := total_ecc_bytes st in
  ¬ layout_skipped st →
  (ecc_mode e = NAND_ECC_HW → bch_ready st) →
  0 < ecc_size e < 2 ^ 31 →
  0 <= ecc_bytes_of (ecc_size e) (ecc_strength e) →
  0 <= ws < 2 ^ 32 →
  0 <= oob < 2 ^ 32 →
  total + 2 <= oob →
  (Z.to_nat total ≤ length (eccpos (ecclayout (nand st))))%nat →
  (0 < length (oobfree (ecclayout (nand st))))%nat →
  ∃ st', jz4780_nand_init_ecc st = Some (0, st') ∧
    ecc_layout (ecc (chip (nand st'))) = true ∧
    eccbytes (ecclayout (nand st')) = total ∧
    (∀ i, 0 <= i < total →
          eccpos (ecclayout (nand st')) !! Z.to_nat i = Some (oob - total + i)) ∧
    oobfree (ecclayout (nand st'))
    = <[0%nat := Build_oobfree 2 (oob - total - 2)]>
        (oobfree (ecclayout (nand st))) ∧
    oobfree (ecclayout (nand st')) !! 0%nat
    = Some (Build_oobfree 2 (oob - total - 2)) ∧
    (∀ i p f, 0 <= i < total →
              eccpos (ecclayout (nand st')) !! Z.to_nat i = Some p →
              oobfree (ecclayout (nand st')) !! 0%nat = Some f →
              ¬ (oob_offset f <= p < oob_offset f + oob_length f)).
Proof.
  intros e ws oob total Hskip Hready Hsize Hbytes Hws Hoob Hinv Hpos Hfree.
  assert (0 <= ws / ecc_size e) as Hsteps by (apply Z.div_pos; lia).
  assert (0 <= total) as Htot by (unfold total, total_ecc_bytes; fold e ws; nia).
  assert (layout_eccbytes st = total) as Hn.
  { unfold layout_eccbytes. cbv zeta. fold e ws.
    rewrite (to_u32_small ws), (to_u32_small (ecc_size e)) by lia.
    pose proof (ecc_bytes_of_upper (ecc_size e) (ecc_strength e)) as Hlt.
    rewrite (to_u32_small (ecc_bytes_of _ _)) by lia.
    apply to_u32_small. unfold total, total_ecc_bytes in *. fold e ws in Hinv |- *.
    lia. }
  destruct (init_ecc_layout_path st Hskip Hready)
    as (st' & Hrun & _ & Hl & Hcount & Hp & Hf).
  { split; [fold e; rewrite to_u32_small by lia; lia |].
    rewrite Hn. split; assumption. }
  fold oob in Hp, Hf. rewrite Hn in Hcount, Hp, Hf.
  rewrite (to_u32_small oob) in Hp, Hf by lia.
  rewrite (to_u32_small (oob - total - 2)) in Hf by lia.
  assert (Hp' : ∀ i, 0 <= i < total →
            eccpos (ecclayout (nand st')) !! Z.to_nat i = Some (oob - total + i)).
  { intros i Hi. rewrite (Hp i Hi).
    rewrite (to_u32_small (oob - total)) by lia.
    rewrite to_u32_small by lia. reflexivity. }
  assert (Hf0 : oobfree (ecclayout (nand st')) !! 0%nat
                = Some (Build_oobfree 2 (oob - total - 2))).
  { rewrite Hf. apply list_lookup_insert_eq. exact Hfree. }
  exists st'. repeat (split; [assumption |]).
  intros i p f Hi Hpi Hfi. rewrite (Hp' i Hi) in Hpi. rewrite Hf0 in Hfi.
  injection Hpi as <-. injection Hfi as <-. simpl. lia.
Qed.

(** X28. [jz4780_nand_init_ecc] never compares the ECC byte total with
    the OOB size: on the layout path (a hardware or raw mode, the BCH engine
    at hand in hardware mode, a non-zero step size, a layout that fits the
    arrays) it returns 0 whatever the OOB size is, the start of the ECC
    bytes and the free length being computed modulo 2^32; attach goes on to
    the tail scan, and the chip is registered whenever [nand_scan_tail] and
    [mtd_device_parse_register] return 0. *)
Theorem init_ecc_accepts_any_oob_size (st : state) :
  let e := ecc (chip (nand st)) in
  let n := layout_eccbytes st in
  let oob := to_u32 (oobsize (mtd (nand st))) in
  ¬ layout_skipped st →
  (ecc_mode e = NAND_ECC_HW → bch_ready st) →
  layout_fits st →
  ∃ st1, jz4780_nand_init_ecc st = Some (0, st1) ∧
    ecc_layout (ecc (chip (nand st1))) = true ∧
    eccbytes (ecclayout (nand st1)) = n ∧
    (∀ i, 0 <= i < n →
          eccpos (ecclayout (nand st1)) !! Z.to_nat i
          = Some (to_u32 (to_u32 (oob - n) + i))) ∧
    oobfree (ecclayout (nand st1)) !! 0%nat
    = Some (Build_oobfree 2 (to_u32 (oob - n - 2))) ∧
    (∀ st2, nand_scan_tail st1 = (0, st2) →
            mtd_device_parse_register st2 = 0 →
            init_chip_scan st = Some (0, emit (EvMtdParseRegister 0) st2)).
Proof.
  intros e n oob Hskip Hready Hfits.
  destruct (init_ecc_layout_path st Hskip Hready Hfits)
    as (st1 & Hrun & _ & Hl & Hcount & Hp & Hf).
  exists st1. repeat (split; [assumption |]). split.
  - rewrite Hf. apply list_lookup_insert_eq. apply Hfits.
  - intros st2 Htail Hreg. unfold init_chip_scan.
    rewrite Hrun. simpl. rewrite Htail. simpl. rewrite Hreg. reflexivity.
Qed.

End EccInit.

(** * The properties on the concrete platform *)

(** Scenario 1: [cmd_ctrl(0x70, CLE|NCE|CHANGE)] on chip 0 writes 0x70 at
    the CMD sub-window of bank 1, after asserting the bank. *)
Lemma cmd_ctrl_change_selects_window_witness :
  ∃ st', @jz4780_nand_cmd_ctrl (board 1 geom_224) 0x70 0x83 chip0_selected
         = Some st' ∧
    IO_ADDR_W (chip (nand st')) = 0x1b400000 ∧
    log st' = [EvNemcAssert 1 true; EvWriteb 0x70 0x1b400000].
Proof.
  destruct (@cmd_ctrl_change_selects_window (board 1 geom_224) 0x70 0x83
              chip0_selected (Build_cs 1 0x1b000000) eq_refl eq_refl)
    as (st' & Hrun & _ & Hw & Hlog).
  exists st'. split; [exact Hrun |]. split; [exact Hw |].
  rewrite Hlog, Hw. reflexivity.
Defined.

Lemma cmd_ctrl_unselected_is_noop_witness :
  ∃ st', @jz4780_nand_cmd_ctrl (board 1 geom_224) 0x70 0x83 (identified geom_224)
         = Some st' ∧
    log st' = [EvWarn] ∧ nand st' = nand (identified geom_224).
Proof.
  destruct (@cmd_ctrl_unselected_is_noop (board 1 geom_224) 0x70 0x83
              (identified geom_224) ltac:(simpl; lia))
    as (st' & Hrun & Hlog & Hnand & _).
  exists st'. split; [exact Hrun |]. split; [exact Hlog | exact Hnand].
Defined.

Lemma select_chip_points_at_data_window_witness :
  ∃ st', @jz4780_nand_select_chip 1 two_banks = Some st' ∧
    IO_ADDR_R (chip (nand st')) = 0x1d000000 ∧
    IO_ADDR_W (chip (nand st')) = 0x1d000000 ∧
    selected (nand st') = 1 ∧
    log st' = [].
Proof.
  destruct (select_chip_points_at_data_window 1 two_banks
              (Build_cs 3 0x1d000000) ltac:(lia) eq_refl)
    as (st' & Hrun & Hr & Hw & Hsel & Hlog & _).
  exists st'. repeat (split; [assumption |]). exact Hlog.
Defined.

Lemma session_asserts_one_bank_witness :
  ∃ st', @select_session (board 1 geom_224) 0 [(0x70, 0x83); (0x00, 0x85)] two_banks
         = Some st' ∧
    nemc_asserted (log st') = ∅ ∧
    selected (nand st') = -1.
Proof.
  destruct (@session_asserts_one_bank (board 1 geom_224) 0
              [(0x70, 0x83); (0x00, 0x85)] two_banks (Build_cs 1 0x1b000000)
              ltac:(lia) eq_refl ltac:(apply empty_subseteq))
    as (st' & Hrun & _ & _ & Hnone & Hsel).
  exists st'. split; [exact Hrun |]. split; [exact Hnone | exact Hsel].
Defined.

(** A line reading 1 with no inversion: the XOR is 1, [dev_ready] is 0. *)
Lemma dev_ready_is_not_the_xor :
  @jz4780_nand_dev_ready (board 1 geom_224) (rb_wired false)
  ≠ Z.lxor (@gpiod_get_value_cansleep (board 1 geom_224)
              (busy_gpio (nand (rb_wired false))))
           (Z.b2z (busy_gpio_active_low (nand (rb_wired false)))).
Proof. vm_compute. discriminate. Qed.

Lemma dev_ready_negates_xor_witness :
  @jz4780_nand_dev_ready (board 1 geom_224) (rb_wired false) = 0 ∧
  @jz4780_nand_dev_ready (board 0 geom_224) (rb_wired false) = 1.
Proof.
  split.
  - destruct (@dev_ready_negates_xor (board 1 geom_224) (rb_wired false) 20 eq_refl)
      as (Hval & _). exact Hval.
  - destruct (@dev_ready_negates_xor (board 0 geom_224) (rb_wired false) 20 eq_refl)
      as (Hval & _). exact Hval.
Defined.

Lemma calculate_follows_reading_flag_witness :
  @jz4780_nand_ecc_calculate (board 1 geom_224) [1; 2; 3] [9; 9]
    (@jz4780_nand_ecc_hwctl (board 1 geom_224) 0 (identified geom_224))
  = (0, [9; 9], @jz4780_nand_ecc_hwctl (board 1 geom_224) 0 (identified geom_224)) ∧
  ∃ st', @jz4780_nand_ecc_calculate (board 1 geom_224) [1; 2; 3] [9; 9]
           (@jz4780_nand_ecc_hwctl (board 1 geom_224) 1 (identified geom_224))
         = (0, [], st') ∧
    bch_calculate_calls (log st') = 1%nat.
Proof.
  destruct (@calculate_follows_reading_flag (board 1 geom_224) [1; 2; 3] [9; 9]
              (identified geom_224) ltac:(simpl; lia))
    as (_ & Hread & _ & st' & Hwrite & _ & Hcalls & _).
  split; [exact Hread |]. exists st'. split; [exact Hwrite | exact Hcalls].
Defined.

Lemma identified_224_fits : layout_fits (identified geom_224).
Proof. repeat split; vm_compute; [discriminate | lia | lia]. Defined.

Lemma identified_128_fits : layout_fits (identified geom_128).
Proof. repeat split; vm_compute; [discriminate | lia | lia]. Defined.

Lemma board_bch_ready (v : Z) (g : geometry) (st : state) :
  @bch_ready (board v g) st.
Proof. right. exists 7, (Some 7). split; reflexivity. Defined.

Lemma hw_not_skipped (g : geometry) :
  g_mode g = NAND_ECC_HW → ¬ layout_skipped (identified g).
Proof. intros Hg [Hs | Hs]; simpl in Hs; congruence. Defined.

(** Step size 512 and strength 4 need 4 * 13 = 52 bits: the code stores 6
    bytes, the formula of the specification gives 7. *)
Lemma init_ecc_bytes_not_rounded_up :
  ∃ st', @jz4780_nand_init_ecc (board 1 geom_512) (identified geom_512)
         = Some (0, st') ∧
    ecc_bytes (ecc (chip (nand st'))) = 6 ∧
    spec_ecc_bytes_per_step 512 4 = 7 ∧
    ecc_bytes (ecc (chip (nand st')))
    ≠ spec_ecc_bytes_per_step (ecc_size (ecc (chip (nand (identified geom_512)))))
        (ecc_strength (ecc (chip (nand (identified geom_512))))).
Proof.
  eexists. split; [vm_compute; reflexivity |].
  split; [reflexivity |]. split; [reflexivity |]. vm_compute. discriminate.
Qed.

(** Scenario 3: 24 * 14 = 336 bits are 42 bytes, rounded either way. *)
Lemma init_ecc_bytes_round_down_witness :
  ∃ ret st', @jz4780_nand_init_ecc (board 1 geom_224) (identified geom_224)
             = Some (ret, st') ∧
    ecc_bytes (ecc (chip (nand st'))) = 42 ∧
    ecc_bytes (ecc (chip (nand st'))) = spec_ecc_bytes_per_step 1024 24.
Proof.
  destruct (@init_ecc_bytes_round_down (board 1 geom_224) (identified geom_224)
              ltac:(simpl; lia) ltac:(simpl; lia) ltac:(vm_compute; reflexivity)
              (or_intror identified_224_fits))
    as (ret & st' & Hrun & Hbytes & Hceil).
  exists ret, st'. split; [exact Hrun |].
  split; [rewrite Hbytes; vm_compute; reflexivity |].
  apply Hceil. vm_compute. reflexivity.
Defined.

(** Scenario 3: 168 ECC bytes at offsets 56..223, free region (2, 54). *)
Lemma init_ecc_layout_right_aligned_witness :
  ∃ st', @jz4780_nand_init_ecc (board 1 geom_224) (identified geom_224)
         = Some (0, st') ∧
    eccbytes (ecclayout (nand st')) = 168 ∧
    eccpos (ecclayout (nand st')) !! Z.to_nat 0 = Some 56 ∧
    eccpos (ecclayout (nand st')) !! Z.to_nat 167 = Some 223 ∧
    oobfree (ecclayout (nand st')) !! 0%nat = Some (Build_oobfree 2 54).
Proof.
  destruct (@init_ecc_layout_right_aligned (board 1 geom_224) (identified geom_224)
              (hw_not_skipped geom_224 eq_refl)
              (λ _, board_bch_ready 1 geom_224 (identified geom_224))
              ltac:(simpl; lia) ltac:(vm_compute; discriminate)
              ltac:(simpl; lia) ltac:(simpl; lia)
              ltac:(vm_compute; discriminate)
              ltac:(vm_compute; lia) ltac:(vm_compute; lia))
    as (st' & Hrun & _ & Hcount & Hpos & _ & Hfree & _).
  exists st'. split; [exact Hrun |].
  split; [rewrite Hcount; vm_compute; reflexivity |].
  split; [rewrite (Hpos 0) by (vm_compute; split; [discriminate | reflexivity]);
          vm_compute; reflexivity |].
  split; [rewrite (Hpos 167) by (vm_compute; split; [discriminate | reflexivity]);
          vm_compute; reflexivity |].
  rewrite Hfree. vm_compute. reflexivity.
Defined.

(** C4 (the code at the failing input). Scenario 4: 168 ECC bytes and a
    128-byte OOB, so that [total_ecc_bytes + 2 > oob_size].
    [jz4780_nand_init_ecc] reports no error: it returns 0 with 168 ECC
    positions that start at 2^32 - 40, outside the OOB area, and a free
    length of 2^32 - 42; and on a platform whose tail scan and registration
    succeed the whole attach returns 0 with the chip registered. *)
Lemma init_ecc_does_not_refuse_small_oob :
  total_ecc_bytes (identified geom_128) + 2
  > oobsize (mtd (nand (identified geom_128))) ∧
  (∃ st', @jz4780_nand_init_ecc (board 1 geom_128) (identified geom_128)
          = Some (0, st') ∧
     eccbytes (ecclayout (nand st')) = 168 ∧
     eccpos (ecclayout (nand st')) !! 0%nat = Some 4294967256 ∧
     oobfree (ecclayout (nand st')) !! 0%nat = Some (Build_oobfree 2 4294967254)) ∧
  (∃ st', @jz4780_nand_init_chip (board 1 geom_128) 0 two_banks = Some (0, st') ∧
     last (log st') = Some (EvMtdParseRegister 0)).
Proof.
  split; [vm_compute; reflexivity |].
  split; eexists; (split; [vm_compute; reflexivity |]); vm_compute; repeat split.
Qed.

Lemma init_ecc_accepts_any_oob_size_witness :
  ∃ st1, @jz4780_nand_init_ecc (board 1 geom_128) (identified geom_128)
         = Some (0, st1) ∧
    eccbytes (ecclayout (nand st1)) = 168 ∧
    oobfree (ecclayout (nand st1)) !! 0%nat = Some (Build_oobfree 2 4294967254) ∧
    @init_chip_scan (board 1 geom_128) (identified geom_128)
    = Some (0, emit (EvMtdParseRegister 0) st1).
Proof.
  destruct (@init_ecc_accepts_any_oob_size (board 1 geom_128) (identified geom_128)
              (hw_not_skipped geom_128 eq_refl)
              (λ _, board_bch_ready 1 geom_128 (identified geom_128))
              identified_128_fits)
    as (st1 & Hrun & _ & Hcount & _ & Hfree & Hreg).
  exists st1. split; [exact Hrun |].
  split; [rewrite Hcount; vm_compute; reflexivity |].
  split; [rewrite Hfree; vm_compute; reflexivity |]. apply Hreg; reflexivity.
Defined.

(** * Further properties of the hooks *)

Section Bus.
Context {ext : Externals}.

Lemma to_u8_range (z : Z) : 0 <= to_u8 z < 256.
Proof. unfold to_u8. apply Z.mod_pos_bound. lia. Qed.

(** Calls without [NAND_CTRL_CHANGE] on a selected chip: each writes its
    byte at the pointer as it stands. *)
Lemma cmd_ctrl_seq_plain (calls : list (Z * Z)) :
  ∀ st : state,
    0 <= selected (nand st) →
    Forall (λ call, has_flag call.2 NAND_CTRL_CHANGE = false ∧
                    call.1 ≠ NAND_CMD_NONE) calls →
    cmd_ctrl_seq calls st
    = Some (Build_state (nfc st) (nand st)
              (log st ++ map (λ call, EvWriteb (to_u8 call.1)
                                        (IO_ADDR_W (chip (nand st)))) calls)).
Proof.
  induction calls as [| [cmd ctrl] rest IH]; intros st Hsel Hall; simpl.
  - rewrite app_nil_r. destruct st; reflexivity.
  - apply Forall_cons in Hall as [[Hplain Hbyte] Hrest]. simpl in Hplain, Hbyte.
    unfold jz4780_nand_cmd_ctrl.
    destruct (Z.ltb_spec (selected (nand st)) 0) as [? | _]; [lia |].
    rewrite Hplain. simpl.
    destruct (Z.eqb_spec cmd NAND_CMD_NONE) as [? | _]; [contradiction |].
    simpl. rewrite IH by assumption. simpl.
    rewrite <- app_assoc. reflexivity.
Qed.

(** X1. Once a call with [NAND_CTRL_CHANGE] has latched a sub-window, the
    bytes of the following calls without that flag all go to the same
    sub-window, in order, with no further chip-enable change. *)
Theorem latched_window_takes_following_bytes (cmd ctrl : Z)
    (calls : list (Z * Z)) (st : state) (c : jz4780_nand_cs) :
  cs_at (nfc st) (selected (nand st)) = Some c →
  has_flag ctrl NAND_CTRL_CHANGE = true →
  Forall (λ call, has_flag call.2 NAND_CTRL_CHANGE = false ∧
                  call.1 ≠ NAND_CMD_NONE) calls →
  let w := if has_flag ctrl NAND_ALE then base c + OFFSET_ADDR
           else if has_flag ctrl NAND_CLE then base c + OFFSET_CMD
           else base c + OFFSET_DATA in
  ∃ st', cmd_ctrl_seq ((cmd, ctrl) :: calls) st = Some st' ∧
    IO_ADDR_W (chip (nand st')) = w ∧
    log st' = log st
      ++ EvNemcAssert (bank c) (has_flag ctrl NAND_NCE)
         :: (if cmd =? NAND_CMD_NONE then [] else [EvWriteb (to_u8 cmd) w])
      ++ map (λ call, EvWriteb (to_u8 call.1) w) calls.
Proof.
  intros Hc Hchange Hplain w. simpl. unfold jz4780_nand_cmd_ctrl.
  rewrite (selected_not_negative _ _ Hc), Hchange, Hc. simpl. fold w.
  pose proof (cs_at_nonneg _ _ _ Hc) as Hsel.
  destruct (cmd =? NAND_CMD_NONE); simpl;
    rewrite cmd_ctrl_seq_plain by assumption; simpl;
    eexists; (split; [reflexivity |]); simpl; (split; [reflexivity |]);
    rewrite <- ?app_assoc; reflexivity.
Qed.

Ltac log_facts :=
  repeat match goal with
         | |- Forall _ [] => apply Forall_nil
         | |- Forall _ (_ :: _) => apply Forall_cons
         | |- _ ∧ _ => split
         | |- writes_within _ _ => simpl
         | |- no_deassert _ => exact I
         | |- True => exact I
         end;
  try assumption; try reflexivity; try lia.

(** One [cmd_ctrl] call on a selected chip whose write pointer is in the
    chip's bank window. *)
Lemma cmd_ctrl_window_step (cmd ctrl : Z) (st : state) (c : jz4780_nand_cs) :
  cs_at (nfc st) (selected (nand st)) = Some c →
  IO_ADDR_W (chip (nand st)) ∈ windows c →
  ∃ st' l, jz4780_nand_cmd_ctrl cmd ctrl st = Some st' ∧
    log st' = log st ++ l ∧
    Forall (writes_within c) l ∧
    Forall (λ e, is_bch_calculate e = false) l ∧
    IO_ADDR_W (chip (nand st')) ∈ windows c ∧
    nfc st' = nfc st ∧
    nand st' = set_chip (set_IO_ADDR_W (IO_ADDR_W (chip (nand st')))
                           (chip (nand st))) (nand st).
Proof.
  intros Hc Hw. unfold jz4780_nand_cmd_ctrl.
  rewrite (selected_not_negative _ _ Hc).
  pose proof (to_u8_range cmd) as Hbyte.
  assert (Hself : nand st = set_chip (set_IO_ADDR_W (IO_ADDR_W (chip (nand st)))
                                       (chip (nand st))) (nand st))
    by (destruct st as [? [? [] ? ? ? ? ? ? ?] ?]; reflexivity).
  destruct (has_flag ctrl NAND_CTRL_CHANGE); [rewrite Hc |]; simpl.
  - assert (Hnew : (if has_flag ctrl NAND_ALE then base c + OFFSET_ADDR
                    else if has_flag ctrl NAND_CLE then base c + OFFSET_CMD
                    else base c + OFFSET_DATA) ∈ windows c)
      by (unfold windows; destruct (has_flag ctrl NAND_ALE),
            (has_flag ctrl NAND_CLE); set_solver).
    destruct (cmd =? NAND_CMD_NONE); simpl; eexists; eexists;
      (split; [reflexivity |]); simpl; rewrite <- ?app_assoc;
      (split; [reflexivity |]); simpl; log_facts.
  - destruct (cmd =? NAND_CMD_NONE); simpl; eexists; eexists;
      (split; [reflexivity |]); simpl;
      (split; [first [reflexivity | symmetry; apply app_nil_r] |]); log_facts.
Qed.

Lemma cmd_ctrl_seq_window (calls : list (Z * Z)) :
  ∀ (st : state) (c : jz4780_nand_cs),
    cs_at (nfc st) (selected (nand st)) = Some c →
    IO_ADDR_W (chip (nand st)) ∈ windows c →
    ∃ st' l, cmd_ctrl_seq calls st = Some st' ∧
      log st' = log st ++ l ∧
      Forall (writes_within c) l ∧
      Forall (λ e, is_bch_calculate e = false) l ∧
      IO_ADDR_W (chip (nand st')) ∈ windows c ∧
      nfc st' = nfc st ∧
      nand st' = set_chip (set_IO_ADDR_W (IO_ADDR_W (chip (nand st')))
                             (chip (nand st))) (nand st).
Proof.
  induction calls as [| [cmd ctrl] rest IH]; intros st c Hc Hw; simpl.
  - exists st, []. rewrite app_nil_r. split; [reflexivity |].
    split; [reflexivity |]. do 2 (split; [constructor |]).
    split; [assumption |]. split; [reflexivity |].
    destruct st as [? [? [] ? ? ? ? ? ? ?] ?]; reflexivity.
  - destruct (cmd_ctrl_window_step cmd ctrl st c Hc Hw)
      as (st1 & l1 & -> & Hl1 & Hb1 & Hq1 & Hw1 & Hn1 & Hf1). simpl.
    assert (Hc1 : cs_at (nfc st1) (selected (nand st1)) = Some c)
      by (rewrite Hn1, Hf1; exact Hc).
    destruct (IH st1 c Hc1 Hw1) as (st2 & l2 & -> & Hl2 & Hb2 & Hq2 & Hw2 & Hn2 & Hf2).
    exists st2, (l1 ++ l2). split; [reflexivity |].
    rewrite Hl2, Hl1, <- app_assoc. split; [reflexivity |].
    split; [apply Forall_app; split; assumption |].
    split; [apply Forall_app; split; assumption |].
    split; [assumption |]. split; [congruence |].
    rewrite Hf2, Hf1. reflexivity.
Qed.

(** X2. From [select_chip(n)] on, through any run of [cmd_ctrl] calls: the
    run is defined, every byte put on the bus is a value below 256 written
    into one of the three sub-windows of chip [n]'s bank, the write pointer
    ends in one of them, and the chip record differs from the one before
    only in the selected index and the two pointers, the read pointer
    staying on the DATA sub-window. *)
Theorem selected_chip_writes_stay_in_window (n : Z) (calls : list (Z * Z))
    (st : state) (c : jz4780_nand_cs) :
  n ≠ -1 →
  cs_at (nfc st) n = Some c →
  ∃ st' l, select_then n calls st = Some st' ∧
    log st' = log st ++ l ∧
    Forall (writes_within c) l ∧
    IO_ADDR_W (chip (nand st')) ∈ windows c ∧
    nfc st' = nfc st ∧
    nand st' = set_selected n
                 (set_chip (set_IO_ADDR_W (IO_ADDR_W (chip (nand st')))
                              (set_IO_ADDR_R (base c + OFFSET_DATA)
                                 (chip (nand st)))) (nand st)).
Proof.
  intros Hn Hc. unfold select_then, jz4780_nand_select_chip.
  destruct (Z.eqb_spec n (-1)) as [? | _]; [contradiction |].
  rewrite Hc. simpl.
  set (st1 := set_nand _ _).
  destruct (cmd_ctrl_seq_window calls st1 c Hc)
    as (st2 & l & -> & Hl & Hb & _ & Hw & Hnfc & Hframe).
  { simpl. unfold windows. set_solver. }
  exists st2, l. repeat split; assumption.
Qed.

End Bus.

Section Selection.
Context {ext : Externals}.

(** X3. Deselecting, from a state with no chip selected or with a selected
    chip of the table, leaves [-1] as the selected index and keeps both
    pointers as they were; after it a further deselect changes nothing and
    calls nothing, and every [cmd_ctrl] call only warns. *)
Theorem deselect_is_final (st : state) :
  selected (nand st) < 0 ∨ is_Some (cs_at (nfc st) (selected (nand st))) →
  ∃ st1, jz4780_nand_select_chip (-1) st = Some st1 ∧
    selected (nand st1) = -1 ∧
    chip (nand st1) = chip (nand st) ∧
    nfc st1 = nfc st ∧
    (selected (nand st) < 0 → log st1 = log st) ∧
    jz4780_nand_select_chip (-1) st1 = Some st1 ∧
    ∀ cmd ctrl, jz4780_nand_cmd_ctrl cmd ctrl st1 = Some (emit EvWarn st1).
Proof.
  intros Hsel. unfold jz4780_nand_select_chip at 1. simpl.
  destruct (Z.leb_spec 0 (selected (nand st))) as [Hge | Hlt].
  - destruct Hsel as [? | [c Hc]]; [lia |]. rewrite Hc. simpl.
    eexists. split; [reflexivity |]. simpl. repeat split. lia.
  - simpl. eexists. split; [reflexivity |]. simpl. repeat split.
Qed.

Lemma nemc_fold_keeps_asserted (b : Z) (l : list event) :
  Forall no_deassert l →
  ∀ s : gset Z, b ∈ s → b ∈ foldl nemc_step s l.
Proof.
  induction 1 as [| e l He _ IH]; intros s Hs; simpl; [exact Hs |].
  apply IH. destruct e as [| b' [] | | | | | | |]; simpl in *; try done.
  set_solver.
Qed.

(** Selecting chip [n] and asserting its chip enable. *)
Lemma select_then_assert (n cmd ctrl : Z) (st : state) (c : jz4780_nand_cs) :
  n ≠ -1 →
  cs_at (nfc st) n = Some c →
  has_flag ctrl NAND_CTRL_CHANGE = true →
  has_flag ctrl NAND_NCE = true →
  ∃ st1 l, select_then n [(cmd, ctrl)] st = Some st1 ∧
    log st1 = log st ++ EvNemcAssert (bank c) true :: l ∧
    Forall no_deassert l ∧
    nfc st1 = nfc st.
Proof.
  intros Hn Hc Hch Hnce.
  pose proof (cs_at_nonneg _ _ _ Hc) as Hge.
  unfold select_then, jz4780_nand_select_chip.
  destruct (Z.eqb_spec n (-1)) as [? | _]; [contradiction |].
  rewrite Hc. simpl. unfold jz4780_nand_cmd_ctrl. simpl.
  destruct (Z.ltb_spec n 0) as [? | _]; [lia |].
  rewrite Hch, Hc, Hnce. simpl.
  destruct (cmd =? NAND_CMD_NONE); simpl; eexists; eexists;
    (split; [reflexivity |]); simpl; rewrite <- ?app_assoc; simpl;
    (split; [reflexivity |]); split; repeat constructor.
Qed.

(** X4. Going from chip [a] to chip [b] without a deselect in between
    issues no deassert: after [select_chip(a)], a call asserting chip
    enable, [select_chip(b)] and another such call, the banks of both chips
    are asserted. *)
Theorem reselect_leaves_old_bank_asserted (a b cmd1 ctrl1 cmd2 ctrl2 : Z)
    (st : state) (ca cb : jz4780_nand_cs) :
  a ≠ -1 → b ≠ -1 →
  cs_at (nfc st) a = Some ca →
  cs_at (nfc st) b = Some cb →
  has_flag ctrl1 NAND_CTRL_CHANGE = true → has_flag ctrl1 NAND_NCE = true →
  has_flag ctrl2 NAND_CTRL_CHANGE = true → has_flag ctrl2 NAND_NCE = true →
  ∃ st1 st2 l, select_then a [(cmd1, ctrl1)] st = Some st1 ∧
    select_then b [(cmd2, ctrl2)] st1 = Some st2 ∧
    log st2 = log st ++ l ∧
    Forall no_deassert l ∧
    bank ca ∈ nemc_asserted (log st2) ∧
    bank cb ∈ nemc_asserted (log st2).
Proof.
  intros Ha Hb Hca Hcb Hch1 Hn1 Hch2 Hn2.
  destruct (select_then_assert a cmd1 ctrl1 st ca Ha Hca Hch1 Hn1)
    as (st1 & l1 & Hrun1 & Hl1 & Hd1 & Hnfc1).
  rewrite <- Hnfc1 in Hcb.
  destruct (select_then_assert b cmd2 ctrl2 st1 cb Hb Hcb Hch2 Hn2)
    as (st2 & l2 & Hrun2 & Hl2 & Hd2 & _).
  exists st1, st2, (EvNemcAssert (bank ca) true :: l1
                    ++ EvNemcAssert (bank cb) true :: l2).
  split; [exact Hrun1 |]. split; [exact Hrun2 |].
  assert (Hlog : log st2 = (log st ++ EvNemcAssert (bank ca) true :: l1)
                           ++ EvNemcAssert (bank cb) true :: l2)
    by (rewrite Hl2, Hl1; reflexivity).
  split; [rewrite Hlog, <- app_assoc; reflexivity |].
  split.
  { constructor; [exact I |]. apply Forall_app. split; [exact Hd1 |].
    constructor; [exact I | exact Hd2]. }
  rewrite Hlog, nemc_asserted_app, nemc_asserted_app. simpl. split.
  - apply nemc_fold_keeps_asserted; [exact Hd2 |].
    apply elem_of_union_r. apply nemc_fold_keeps_asserted; [exact Hd1 |].
    set_solver.
  - apply nemc_fold_keeps_asserted; [exact Hd2 |]. set_solver.
Qed.

End Selection.

Section EccPaths.
Context {ext : Externals}.

(** X5. Bus traffic does not disturb the ECC state: after [hwctl(mode)],
    a chip select and any run of [cmd_ctrl] calls leave the reading flag as
    [hwctl] set it and the ECC parameters and controller as they were, and
    call the BCH engine not once; so [calculate] afterwards is decided by
    that [hwctl] alone. *)
Theorem bus_traffic_keeps_ecc_hint (mode n : Z) (calls : list (Z * Z))
    (dat ecc_code : list Z) (st : state) (c : jz4780_nand_cs) :
  n ≠ -1 →
  cs_at (nfc st) n = Some c →
  ∃ st', select_then n calls (jz4780_nand_ecc_hwctl mode st) = Some st' ∧
    reading (nand st') = (mode =? NAND_ECC_READ) ∧
    ecc (chip (nand st')) = ecc (chip (nand st)) ∧
    nfc st' = nfc st ∧
    bch_calculate_calls (log st') = bch_calculate_calls (log st) ∧
    (jz4780_nand_ecc_calculate dat ecc_code st').1
    = if mode =? NAND_ECC_READ then (0, ecc_code)
      else jz4780_bch_calculate (bch (nfc st)) (bch_params_of st) dat ecc_code.
Proof.
  intros Hn Hc. unfold select_then, jz4780_nand_select_chip.
  destruct (Z.eqb_spec n (-1)) as [? | _]; [contradiction |].
  simpl. rewrite Hc. simpl.
  set (st1 := set_nand _ _).
  destruct (cmd_ctrl_seq_window calls st1 c Hc)
    as (st2 & l & -> & Hl & _ & Hq & _ & Hnfc & Hframe).
  { simpl. unfold windows. set_solver. }
  exists st2. split; [reflexivity |].
  assert (Hr : reading (nand st2) = (mode =? NAND_ECC_READ))
    by (rewrite Hframe; reflexivity).
  assert (He : ecc (chip (nand st2)) = ecc (chip (nand st)))
    by (rewrite Hframe; reflexivity).
  split; [exact Hr |]. split; [exact He |]. split; [exact Hnfc |]. split.
  - rewrite Hl. unfold bch_calculate_calls. simpl.
    rewrite List.filter_app, length_app.
    assert (List.filter is_bch_calculate l = []) as ->; [| simpl; lia].
    clear -Hq. induction Hq as [| e l He _ IH]; simpl; [reflexivity |].
    rewrite He. exact IH.
  - unfold jz4780_nand_ecc_calculate. rewrite Hr.
    destruct (mode =? NAND_ECC_READ); [reflexivity |].
    unfold bch_params_of. rewrite He, Hnfc. simpl.
    destruct (jz4780_bch_calculate _ _ _ _); reflexivity.
Qed.

(** X6. A page read, [hwctl(NAND_ECC_READ)], [calculate], [correct], costs
    one call of the BCH engine, the correction: [calculate] returns 0 and
    leaves [ecc_code] alone, [correct] returns what the engine returns for
    the chip's parameters, the data and [read_ecc], and the log gains that
    one event. *)
Theorem read_path_calls_engine_once (dat read_ecc ecc_code : list Z) (st : state) :
  let st1 := jz4780_nand_ecc_hwctl NAND_ECC_READ st in
  let r1 := jz4780_nand_ecc_calculate dat ecc_code st1 in
  let r2 := jz4780_nand_ecc_correct dat read_ecc r1.1.2 r1.2 in
  r1.1 = (0, ecc_code) ∧
  r2.1 = jz4780_bch_correct (bch (nfc st)) (bch_params_of st) dat read_ecc ∧
  log r2.2 = log st ++ [EvBchCorrect (bch (nfc st)) (bch_params_of st) dat read_ecc] ∧
  bch_calculate_calls (log r2.2) = bch_calculate_calls (log st).
Proof.
  unfold jz4780_nand_ecc_calculate, jz4780_nand_ecc_hwctl. simpl.
  rewrite Z.eqb_refl. simpl. unfold jz4780_nand_ecc_correct.
  change (bch_params_of (set_nand _ st)) with (bch_params_of st). simpl.
  destruct (jz4780_bch_correct (bch (nfc st)) (bch_params_of st) dat read_ecc)
    as [ret out].
  simpl. repeat split.
  unfold bch_calculate_calls. rewrite List.filter_app, length_app. simpl. lia.
Qed.

End EccPaths.

(** * Further properties of the ECC initialisation *)

Section EccInitPaths.
Context {ext : Externals}.

(** What the layout part leaves alone when it returns. *)
Lemma init_ecc_layout_frame (st : state) (r : Z) (st' : state) :
  init_ecc_layout st = Some (r, st') →
  r = 0 ∧ nfc st' = nfc st ∧ ecc_hooks st' = ecc_hooks st ∧ log st' = log st.
Proof.
  unfold init_ecc_layout. cbv zeta.
  destruct (decide _); [intros [= <- <-]; done |].
  destruct (_ =? 0); [discriminate |].
  destruct (fill_eccpos _ _ _ _); [| discriminate]. simpl.
  destruct (store_at _ _ _); [| discriminate]. simpl.
  intros [= <- <-]. done.
Qed.

(** X7. In the two software modes [jz4780_nand_init_ecc] returns 0 and
    only stores the byte count: the chip's layout, the layout pointer, the
    hooks and the controller stay as they were, and the BCH engine is not
    acquired whatever the device tree says. *)
Theorem init_ecc_soft_mode_leaves_layout (st : state) :
  layout_skipped st →
  ∃ st', jz4780_nand_init_ecc st = Some (0, st') ∧
    ecc_bytes (ecc (chip (nand st')))
    = ecc_bytes_of (ecc_size (ecc (chip (nand st))))
        (ecc_strength (ecc (chip (nand st)))) ∧
    ecclayout (nand st') = ecclayout (nand st) ∧
    ecc_layout (ecc (chip (nand st'))) = ecc_layout (ecc (chip (nand st))) ∧
    ecc_hooks st' = ecc_hooks st ∧
    nfc st' = nfc st ∧
    log st' = log st.
Proof.
  intros Hskip. unfold jz4780_nand_init_ecc, init_ecc_bch. cbv zeta. simpl.
  destruct (decide (ecc_mode (ecc (chip (nand st))) = NAND_ECC_HW)) as [Hhw | _].
  { destruct Hskip as [Hs | Hs]; rewrite Hs in Hhw; discriminate. }
  unfold init_ecc_layout. cbv zeta. simpl.
  rewrite decide_True by exact Hskip.
  eexists. split; [reflexivity |]. simpl. repeat split.
Qed.

(** X8. In hardware mode with no BCH handle yet and no
    "ingenic,bch-controller" node, [jz4780_nand_init_ecc] returns [-ENODEV]
    before it installs a hook or writes the layout. *)
Theorem init_ecc_hw_needs_bch_node (st : state) :
  ecc_mode (ecc (chip (nand st))) = NAND_ECC_HW →
  bch (nfc st) = None →
  of_parse_phandle_bch = None →
  ∃ st', jz4780_nand_init_ecc st = Some (- ENODEV, st') ∧
    ecc_hooks st' = ecc_hooks st ∧
    ecclayout (nand st') = ecclayout (nand st) ∧
    ecc_layout (ecc (chip (nand st'))) = ecc_layout (ecc (chip (nand st))) ∧
    nfc st' = nfc st.
Proof.
  intros Hhw Hnone Hnode. unfold jz4780_nand_init_ecc, init_ecc_bch. cbv zeta. simpl.
  rewrite decide_True by exact Hhw. rewrite Hnone, Hnode.
  eexists. split; [reflexivity |]. simpl. repeat split.
Qed.

(** X9. In hardware mode with no BCH handle yet, an error of
    [jz4780_bch_get] is returned as it is, the controller keeps whatever
    handle the call left, and no hook is installed and no layout written. *)
Theorem init_ecc_hw_returns_bch_get_error (st : state) (np ret : Z)
    (h : option Z) :
  ecc_mode (ecc (chip (nand st))) = NAND_ECC_HW →
  bch (nfc st) = None →
  of_parse_phandle_bch = Some np →
  jz4780_bch_get np None = (ret, h) →
  ret ≠ 0 →
  ∃ st', jz4780_nand_init_ecc st = Some (ret, st') ∧
    bch (nfc st') = h ∧
    ecc_hooks st' = ecc_hooks st ∧
    ecclayout (nand st') = ecclayout (nand st) ∧
    ecc_layout (ecc (chip (nand st'))) = ecc_layout (ecc (chip (nand st))).
Proof.
  intros Hhw Hnone Hnode Hget Hret.
  unfold jz4780_nand_init_ecc, init_ecc_bch. cbv zeta. simpl.
  rewrite decide_True by exact Hhw. rewrite Hnone, Hnode, Hget.
  destruct (Z.eqb_spec ret 0) as [? | _]; [contradiction |].
  eexists. split; [reflexivity |]. simpl. repeat split.
Qed.

(** X10. In hardware mode with a BCH handle already held,
    [jz4780_nand_init_ecc] does not acquire the engine again: it returns 0
    with the controller unchanged, the three ECC hooks installed and the
    layout pointer set. *)
Theorem init_ecc_hw_reuses_handle (st : state) (h : Z) :
  ecc_mode (ecc (chip (nand st))) = NAND_ECC_HW →
  bch (nfc st) = Some h →
  layout_fits st →
  ∃ st', jz4780_nand_init_ecc st = Some (0, st') ∧
    nfc st' = nfc st ∧
    ecc_hooks st' = (true, true, true) ∧
    ecc_layout (ecc (chip (nand st'))) = true ∧
    eccbytes (ecclayout (nand st')) = layout_eccbytes st.
Proof.
  intros Hhw Hsome Hfits.
  destruct (init_ecc_layout_path st) as (st' & Hrun & _ & Hl & Hn & _).
  { intros [Hs | Hs]; rewrite Hs in Hhw; discriminate. }
  { intros _. left. rewrite Hsome. eauto. }
  { exact Hfits. }
  exists st'. split; [exact Hrun |].
  revert Hrun. unfold jz4780_nand_init_ecc, init_ecc_bch. cbv zeta. simpl.
  rewrite decide_True by exact Hhw. rewrite Hsome. simpl.
  intros Hrun. apply init_ecc_layout_frame in Hrun as (_ & Hnfc & Hhooks & _).
  unfold ecc_hooks in *. simpl in Hnfc, Hhooks. repeat split; assumption.
Qed.

(** X11. In a raw mode, neither hardware nor software,
    [jz4780_nand_init_ecc] writes the layout but installs no ECC hook and
    leaves the controller alone: the BCH engine is not acquired even when
    the device tree names one. *)
Theorem init_ecc_raw_mode_installs_no_hook (st : state) :
  ecc_mode (ecc (chip (nand st))) ≠ NAND_ECC_HW →
  ¬ layout_skipped st →
  layout_fits st →
  ∃ st', jz4780_nand_init_ecc st = Some (0, st') ∧
    nfc st' = nfc st ∧
    ecc_hooks st' = ecc_hooks st ∧
    ecc_layout (ecc (chip (nand st'))) = true ∧
    eccbytes (ecclayout (nand st')) = layout_eccbytes st.
Proof.
  intros Hhw Hskip Hfits.
  destruct (init_ecc_layout_path st Hskip) as (st' & Hrun & _ & Hl & Hn & _).
  { intros ?. contradiction. }
  { exact Hfits. }
  exists st'. split; [exact Hrun |].
  revert Hrun. unfold jz4780_nand_init_ecc, init_ecc_bch. cbv zeta. simpl.
  rewrite decide_False by exact Hhw.
  intros Hrun. apply init_ecc_layout_frame in Hrun as (_ & Hnfc & Hhooks & _).
  unfold ecc_hooks in *. simpl in Hnfc, Hhooks. repeat split; assumption.
Qed.

(** X12. With a step size of 0 in a mode that gets a layout, the number of
    steps [mtd->writesize / chip->ecc.size] is a division by zero:
    [jz4780_nand_init_ecc] has no defined result. *)
Theorem init_ecc_zero_step_divides_by_zero (st : state) :
  ¬ layout_skipped st →
  (ecc_mode (ecc (chip (nand st))) = NAND_ECC_HW → bch_ready st) →
  to_u32 (ecc_size (ecc (chip (nand st)))) = 0 →
  jz4780_nand_init_ecc st = None.
Proof.
  intros Hskip Hready Hzero. unfold jz4780_nand_init_ecc. cbv zeta.
  set (st1 := set_ecc_of _ st).
  destruct (init_ecc_bch_continues st1 Hready) as (st2 & Hbch).
  pose proof (init_ecc_bch_keeps st1) as Hkeep. rewrite Hbch in *.
  cbv zeta in Hkeep. destruct Hkeep as (_ & _ & _ & Hecc).
  simpl in Hecc. injection Hecc as Hm Hs _ _ _.
  unfold init_ecc_layout. cbv zeta.
  rewrite decide_False by (rewrite Hm; exact Hskip).
  rewrite Hs, Hzero. reflexivity.
Qed.

End EccInitPaths.

(** X13. For a step size of 1024 to 2047 bytes the field has 14 bits, so
    for every strength that is a multiple of 4 the stored byte count is
    exact: 7 bytes for every 4 bits of strength, the value the
    specification's rounded-up formula gives too. *)
Theorem ecc_bytes_exact_for_1k_steps (size k : Z) :
  1024 <= size <= 2047 →
  0 <= k < 2 ^ 24 →
  ecc_bytes_of size (4 * k) = 7 * k ∧
  spec_ecc_bytes_per_step size (4 * k) = 7 * k.
Proof.
  intros Hsize Hk.
  assert (highest_bit_index (1 + 8 * size) = 14) as Hbits.
  { unfold highest_bit_index.
    rewrite (Z.log2_unique (1 + 8 * size) 13); lia. }
  split.
  - rewrite ecc_bytes_of_floor by (rewrite ?Hbits; lia).
    rewrite Hbits. replace (4 * k * 14) with (7 * k * 8) by lia.
    apply Z.div_mul. lia.
  - unfold spec_ecc_bytes_per_step, ceil_div. rewrite Hbits.
    replace (4 * k * 14 + 8 - 1) with (7 * k * 8 + 7) by lia.
    rewrite Z.div_add_l by lia. change (7 / 8) with 0. lia.
Qed.

(** * Chip attach *)

Section Attach.
Context {ext : Externals}.

Lemma cs_at_written (n : jz4780_nand_controller) (i : Z)
    (old new : jz4780_nand_cs) (b : option Z) (k : Z) :
  cs_at n i = Some old →
  cs_at (Build_controller b k (<[Z.to_nat i := new]> (cs n))) i = Some new.
Proof.
  unfold cs_at. simpl. destruct (i <? 0); [discriminate |].
  intros Hold. apply list_lookup_insert_eq. eapply lookup_lt_Some, Hold.
Qed.

(** X14. When the bank window cannot be mapped, [jz4780_nand_init_chip]
    returns the error of [devm_ioremap_resource]; by then it has told the
    NEMC that the bank is a NAND bank and has stored the error pointer as
    the base of the bank, and it has done nothing else. *)
Theorem init_chip_map_failure (chipnr e : Z) (st : state) (c : jz4780_nand_cs) :
  cs_at (nfc st) chipnr = Some c →
  devm_ioremap_resource chipnr = inr e →
  ∃ st', jz4780_nand_init_chip chipnr st = Some (e, st') ∧
    log st' = log st ++ [EvNemcSetType (bank c)] ∧
    cs_at (nfc st') chipnr = Some (Build_cs (bank c) e) ∧
    bch (nfc st') = bch (nfc st) ∧
    nand st' = nand st.
Proof.
  intros Hc Hmap. unfold jz4780_nand_init_chip. rewrite Hc. simpl. rewrite Hmap.
  eexists. split; [reflexivity |]. simpl.
  split; [reflexivity |]. split; [| split; reflexivity].
  eapply cs_at_written, Hc.
Qed.

(** X15. With the window mapped, a failed allocation of the chip record
    gives [-ENOMEM] and an error of either GPIO lookup is returned as it
    is; in each case the framework's scan is never started: the bank is
    typed and mapped, and nothing else has changed. *)
Theorem init_chip_early_failure (chipnr p ret : Z) (st : state)
    (c : jz4780_nand_cs) :
  cs_at (nfc st) chipnr = Some c →
  devm_ioremap_resource chipnr = inl p →
  early_failure ret →
  ∃ st', jz4780_nand_init_chip chipnr st = Some (ret, st') ∧
    log st' = log st ++ [EvNemcSetType (bank c)] ∧
    cs_at (nfc st') chipnr = Some (Build_cs (bank c) p) ∧
    bch (nfc st') = bch (nfc st) ∧
    nand st' = nand st.
Proof.
  intros Hc Hmap Hfail. unfold jz4780_nand_init_chip. rewrite Hc. simpl. rewrite Hmap.
  assert (Hcs : cs_at (Build_controller (bch (nfc st)) (num_banks (nfc st))
                         (<[Z.to_nat chipnr := Build_cs (bank c) p]> (cs (nfc st))))
                  chipnr = Some (Build_cs (bank c) p))
    by (eapply cs_at_written, Hc).
  destruct Hfail as [[Hk ->] | [[Hk Hrb] | (Hk & [busy Hrb] & Hwp)]];
    rewrite Hk; simpl; rewrite ?Hrb, ?Hwp;
    eexists; (split; [reflexivity |]); simpl; repeat split; exact Hcs.
Qed.

(** X16. The chip record [jz4780_nand_init_chip] hands to
    [nand_scan_ident]: no chip selected, the 100 us command delay, the
    ready hook installed exactly when a ready/busy line was found, the
    polarity of each line that was found recorded, no ECC mode, no ECC
    hook, empty layout arrays of full size; and what the function returns
    is decided by the two scan phases and the ECC initialisation from
    there. *)
Theorem init_chip_hands_fresh_chip_to_scan (chipnr p : Z) (busy wp : option Z)
    (st : state) (c : jz4780_nand_cs) :
  cs_at (nfc st) chipnr = Some c →
  devm_ioremap_resource chipnr = inl p →
  devm_kzalloc_ok = true →
  devm_gpiod_get_optional true = inl busy →
  devm_gpiod_get_optional false = inl wp →
  ∃ st0,
    jz4780_nand_init_chip chipnr st
    = (if negb ((nand_scan_ident st0).1 =? 0) then Some (nand_scan_ident st0)
       else init_chip_scan (nand_scan_ident st0).2) ∧
    log st0 = log st ++ [EvNemcSetType (bank c)] ∧
    cs_at (nfc st0) chipnr = Some (Build_cs (bank c) p) ∧
    selected (nand st0) = -1 ∧
    chip_delay (chip (nand st0)) = 100 ∧
    dev_ready (chip (nand st0)) = bool_decide (is_Some busy) ∧
    (busy_gpio (nand st0), wp_gpio (nand st0)) = (busy, wp) ∧
    busy_gpio_active_low (nand st0) = from_option gpiod_is_active_low false busy ∧
    wp_gpio_active_low (nand st0) = from_option gpiod_is_active_low false wp ∧
    ecc_mode (ecc (chip (nand st0))) = NAND_ECC_NONE ∧
    ecc_hooks st0 = (false, false, false) ∧
    reading (nand st0) = false ∧
    eccbytes (ecclayout (nand st0)) = 0 ∧
    length (eccpos (ecclayout (nand st0))) = MTD_MAX_ECCPOS_ENTRIES_LARGE ∧
    length (oobfree (ecclayout (nand st0))) = MTD_MAX_OOBFREE_ENTRIES_LARGE.
Proof.
  intros Hc Hmap Hk Hrb Hwp. unfold jz4780_nand_init_chip.
  rewrite Hc. simpl. rewrite Hmap, Hk, Hrb, Hwp. simpl.
  eexists. split.
  { destruct (nand_scan_ident _) as [ret st3] eqn:Hscan. simpl.
    rewrite Hscan. reflexivity. }
  simpl. split; [reflexivity |]. split; [eapply cs_at_written, Hc |].
  rewrite !length_replicate.
  destruct busy, wp; repeat split.
Qed.

(** X17. From the ECC initialisation on, [jz4780_nand_init_chip] returns
    the first non-zero result among [jz4780_nand_init_ecc],
    [nand_scan_tail] and [mtd_device_parse_register], and 0 exactly when
    all three return 0; an error of the ECC initialisation is passed on
    with nothing released. *)
Theorem init_chip_scan_result (st st1 : state) (r1 : Z) :
  jz4780_nand_init_ecc st = Some (r1, st1) →
  let tail := nand_scan_tail st1 in
  let reg := mtd_device_parse_register tail.2 in
  ∃ ret st', init_chip_scan st = Some (ret, st') ∧
    ret = (if negb (r1 =? 0) then r1 else if negb (tail.1 =? 0) then tail.1 else reg) ∧
    (ret = 0 ↔ r1 = 0 ∧ tail.1 = 0 ∧ reg = 0) ∧
    (r1 ≠ 0 → st' = st1).
Proof.
  intros Hecc tail reg. subst reg tail.
  unfold init_chip_scan. rewrite Hecc. simpl.
  destruct (Z.eqb_spec r1 0) as [-> | Hr1]; simpl.
  - destruct (nand_scan_tail st1) as [rt st2]. simpl.
    destruct (Z.eqb_spec rt 0) as [-> | Hrt]; simpl.
    + destruct (Z.eqb_spec (mtd_device_parse_register st2) 0) as [Hreg | Hreg];
        simpl; eexists; eexists; (split; [reflexivity |]); rewrite ?Hreg;
        (split; [reflexivity |]); (split; [| done]); split; try tauto; try done.
    + eexists. eexists. split; [reflexivity |]. split; [reflexivity |].
      split; [| done]. split; [done | tauto].
  - eexists. eexists. split; [reflexivity |]. split; [reflexivity |].
    split; [| done]. split; [done | tauto].
Qed.

(** X18. When the tail scan fails after a successful ECC initialisation,
    its error is returned, the chip is not registered, and the BCH engine,
    if the controller holds one, is released; the controller goes on
    holding the released handle. *)
Theorem init_chip_tail_failure_releases_bch (st st1 st2 : state) (rt : Z) :
  jz4780_nand_init_ecc st = Some (0, st1) →
  nand_scan_tail st1 = (rt, st2) →
  rt ≠ 0 →
  ∃ st', init_chip_scan st = Some (rt, st') ∧
    log st' = log st2 ++ (match bch (nfc st2) with
                          | Some h => [EvBchRelease (Some h)]
                          | None => []
                          end) ∧
    nfc st' = nfc st2 ∧
    nand st' = nand st2.
Proof.
  intros Hecc Htail Hrt. unfold init_chip_scan. rewrite Hecc. simpl.
  rewrite Htail. destruct (Z.eqb_spec rt 0) as [? | _]; [contradiction |]. simpl.
  eexists. split; [reflexivity |]. unfold release_bch.
  destruct (bch (nfc st2)) as [h |] eqn:Hb; simpl; rewrite ?Hb, ?app_nil_r;
    repeat split.
Qed.

(** X19. When [mtd_device_parse_register] fails, its error is returned
    after the chip has been released from the NAND framework and then the
    BCH engine, if held, released, in that order. *)
Theorem init_chip_register_failure_unwinds (st st1 st2 : state) (rr : Z) :
  jz4780_nand_init_ecc st = Some (0, st1) →
  nand_scan_tail st1 = (0, st2) →
  mtd_device_parse_register st2 = rr →
  rr ≠ 0 →
  ∃ st', init_chip_scan st = Some (rr, st') ∧
    log st' = log st2 ++ [EvMtdParseRegister rr; EvNandRelease]
              ++ (match bch (nfc st2) with
                  | Some h => [EvBchRelease (Some h)]
                  | None => []
                  end) ∧
    nfc st' = nfc st2 ∧
    nand st' = nand st2.
Proof.
  intros Hecc Htail Hreg Hrr. unfold init_chip_scan. rewrite Hecc. simpl.
  rewrite Htail. simpl. rewrite Hreg.
  destruct (Z.eqb_spec rr 0) as [? | _]; [contradiction |]. simpl.
  eexists. split; [reflexivity |]. unfold release_bch. simpl.
  destruct (bch (nfc st2)) as [h |] eqn:Hb; simpl; rewrite ?Hb, <- ?app_assoc;
    repeat split.
Qed.

End Attach.

(** * Probe *)

Section ProbePath.
Context {ext : Externals} {pext : ProbeExternals}.

(** X20. A failure while attaching the chips is final: once a child
    has made [jz4780_nand_init_chips]'s loop return an error, the children
    after it are not looked at, and the state is the one the failing child
    left, the chips attached before it included. *)
Theorem init_chips_failure_is_final (pre rest : list (option Z)) :
  ∀ (i ret : Z) (st st1 : state),
    init_chips_from pre i st = Some (ret, st1) →
    ret ≠ 0 →
    init_chips_from (pre ++ rest) i st = Some (ret, st1).
Proof.
  induction pre as [| [reg |] pre IH]; intros i ret st st1 Hrun Hret; simpl in *.
  - injection Hrun as <- _. contradiction.
  - destruct (cs_at (nfc st) i) as [c |]; [| discriminate]. simpl in *.
    destruct (jz4780_nand_init_chip i _) as [[ret' st2] |]; [| discriminate].
    simpl in *. destruct (ret' =? 0); simpl in *; [| exact Hrun].
    eapply IH; eassumption.
  - exact Hrun.
Qed.

(** After children that all attach, the loop goes on with the next chip
    number. *)
Lemma init_chips_from_success (pre rest : list (option Z)) :
  ∀ (i : Z) (st st1 : state),
    Forall is_Some pre →
    init_chips_from pre i st = Some (0, st1) →
    init_chips_from (pre ++ rest) i st
    = init_chips_from rest (i + Z.of_nat (length pre)) st1.
Proof.
  induction pre as [| child pre IH]; intros i st st1 Hall Hrun.
  - simpl in *. injection Hrun as <-. rewrite Z.add_0_r. reflexivity.
  - apply Forall_cons in Hall as [[reg ->] Hall]. simpl in Hrun |- *.
    destruct (cs_at (nfc st) i) as [c |]; [| discriminate]. simpl in *.
    destruct (jz4780_nand_init_chip i _) as [[ret' st2] |]; [| discriminate].
    simpl in *. destruct (Z.eqb_spec ret' 0) as [-> | Hne]; simpl in *.
    + rewrite (IH (i + 1) st2 st1 Hall Hrun). f_equal. lia.
    + injection Hrun as -> _. contradiction.
Qed.

(** X21. A child without a "reg" property makes
    [jz4780_nand_init_chips] return [-EINVAL] when its turn comes: the
    children before it have been attached and stay so, the children after
    it are not looked at. *)
Theorem init_chips_stops_at_missing_reg (pre rest : list (option Z))
    (st st1 : state) :
  Z.of_nat (length (pre ++ None :: rest)) <= num_banks (nfc st) < 2 ^ 32 →
  Forall is_Some pre →
  jz4780_nand_init_chips pre st = Some (0, st1) →
  jz4780_nand_init_chips (pre ++ None :: rest) st = Some (- EINVAL, st1).
Proof.
  intros Hcount Hall. unfold jz4780_nand_init_chips. cbv zeta.
  rewrite length_app in Hcount. simpl in Hcount.
  rewrite (to_u32_small (Z.of_nat (length pre))) by lia.
  rewrite (to_u32_small (Z.of_nat (length (pre ++ None :: rest))))
    by (rewrite length_app; simpl; lia).
  destruct (Z.gtb_spec (Z.of_nat (length pre)) (num_banks (nfc st))); [lia |].
  destruct (Z.gtb_spec (Z.of_nat (length (pre ++ None :: rest)))
              (num_banks (nfc st))) as [Hgt | _].
  { rewrite length_app in Hgt. simpl in Hgt. lia. }
  intros Hrun. rewrite (init_chips_from_success pre _ 0 st st1 Hall Hrun).
  reflexivity.
Qed.

Lemma init_ecc_bch_keeps_cs (st : state) :
  cs (nfc (match init_ecc_bch st with inl s => s | inr r => r.2 end))
  = cs (nfc st).
Proof.
  unfold init_ecc_bch.
  destruct (decide _); [| done].
  destruct (bch (nfc st)); [done |].
  destruct of_parse_phandle_bch; [| done].
  destruct (jz4780_bch_get _ _) as [ret h].
  destruct (ret =? 0); done.
Qed.

Lemma init_ecc_keeps_cs (st st' : state) (r : Z) :
  jz4780_nand_init_ecc st = Some (r, st') → cs (nfc st') = cs (nfc st).
Proof.
  unfold jz4780_nand_init_ecc. cbv zeta.
  set (st1 := set_ecc_of _ st).
  pose proof (init_ecc_bch_keeps_cs st1) as Hbch.
  destruct (init_ecc_bch st1) as [st2 | [r2 st2]]; simpl in Hbch.
  - intros Hrun. apply init_ecc_layout_frame in Hrun as (_ & Hnfc & _).
    rewrite Hnfc. exact Hbch.
  - intros [= <- <-]. exact Hbch.
Qed.

Lemma release_bch_keeps_nfc (st : state) : nfc (release_bch st) = nfc st.
Proof. unfold release_bch. destruct (bch (nfc st)); reflexivity. Qed.

Lemma init_chip_scan_keeps_cs (st st' : state) (r : Z) :
  scans_keep_cs →
  init_chip_scan st = Some (r, st') → cs (nfc st') = cs (nfc st).
Proof.
  intros Hkeep. unfold init_chip_scan.
  destruct (jz4780_nand_init_ecc st) as [[r1 st1] |] eqn:Hecc; [| discriminate].
  simpl. apply init_ecc_keeps_cs in Hecc.
  destruct (r1 =? 0); simpl; [| intros [= <- <-]; exact Hecc].
  pose proof (Hkeep st1) as [_ Htail].
  destruct (nand_scan_tail st1) as [rt st2]. simpl in Htail.
  destruct (rt =? 0); simpl.
  - destruct (mtd_device_parse_register st2 =? 0); simpl; intros [= <- <-];
      rewrite ?release_bch_keeps_nfc; simpl; congruence.
  - intros [= <- <-]. rewrite release_bch_keeps_nfc. congruence.
Qed.

(** The value [jz4780_nand_init_chip] stores as the base of chip [i]. *)
Lemma init_chip_writes_base (i : Z) (st st' : state) (c : jz4780_nand_cs) (r : Z) :
  scans_keep_cs →
  cs_at (nfc st) i = Some c →
  jz4780_nand_init_chip i st = Some (r, st') →
  cs (nfc st')
  = <[Z.to_nat i := Build_cs (bank c)
                      (match devm_ioremap_resource i with
                       | inl p => p
                       | inr e => e
                       end)]> (cs (nfc st)).
Proof.
  intros Hkeep Hc. unfold jz4780_nand_init_chip. rewrite Hc. simpl.
  destruct (devm_ioremap_resource i) as [p | e]; [| intros [= <- <-]; reflexivity].
  destruct devm_kzalloc_ok; simpl; [| intros [= <- <-]; reflexivity].
  destruct (devm_gpiod_get_optional true); [| intros [= <- <-]; reflexivity].
  destruct (devm_gpiod_get_optional false); [| intros [= <- <-]; reflexivity].
  match goal with |- context [nand_scan_ident ?s] =>
    pose proof (Hkeep s) as [Hident _];
    destruct (nand_scan_ident s) as [ri st3] end.
  simpl in Hident. destruct (ri =? 0); simpl.
  - intros Hscan. apply (init_chip_scan_keeps_cs _ _ _ Hkeep) in Hscan.
    congruence.
  - intros [= <- <-]. exact Hident.
Qed.

(** The table of banks after the loop has attached every child. *)
Lemma init_chips_from_table (children : list (option Z)) :
  ∀ (i : Z) (st st' : state),
    scans_keep_cs →
    EINVAL ≠ 0 →
    0 <= i →
    init_chips_from children i st = Some (0, st') →
    length (cs (nfc st')) = length (cs (nfc st)) ∧
    (∀ (k : nat) child, children !! k = Some child →
       ∃ reg, child = Some reg ∧
         cs (nfc st') !! (Z.to_nat i + k)%nat
         = Some (Build_cs (to_u32 reg)
                   (match devm_ioremap_resource (i + Z.of_nat k) with
                    | inl p => p
                    | inr e => e
                    end))) ∧
    (∀ j : nat, (j < Z.to_nat i ∨ Z.to_nat i + length children ≤ j)%nat →
                cs (nfc st') !! j = cs (nfc st) !! j).
Proof.
  induction children as [| [reg |] rest IH]; intros i st st' Hkeep Hinv Hi Hrun;
    simpl in Hrun.
  - injection Hrun as <-. split; [reflexivity |]. split; [| done].
    intros k child Hk. rewrite lookup_nil in Hk. discriminate.
  - destruct (cs_at (nfc st) i) as [c |] eqn:Hc; [| discriminate]. simpl in Hrun.
    set (st1 := set_nfc _ st) in Hrun.
    assert (Hc1 : cs_at (nfc st1) i = Some (Build_cs (to_u32 reg) (base c)))
      by (eapply cs_at_written, Hc).
    destruct (jz4780_nand_init_chip i st1) as [[ret st2] |] eqn:Hchip;
      [| discriminate].
    simpl in Hrun. apply (init_chip_writes_base _ _ _ _ _ Hkeep Hc1) in Hchip.
    simpl in Hchip. rewrite list_insert_insert_eq in Hchip.
    destruct (Z.eqb_spec ret 0) as [-> | Hne]; simpl in Hrun;
      [| injection Hrun as -> _; contradiction].
    destruct (IH (i + 1) st2 st' Hkeep Hinv ltac:(lia) Hrun) as (Hlen & Hin & Hout).
    assert (Hi_lt : (Z.to_nat i < length (cs (nfc st)))%nat).
    { unfold cs_at in Hc. destruct (i <? 0); [discriminate |].
      eapply lookup_lt_Some, Hc. }
    split; [rewrite Hlen, Hchip, length_insert; reflexivity |]. split.
    + intros [| k] child Hk; simpl in Hk.
      * injection Hk as <-. exists reg. split; [reflexivity |].
        rewrite Nat.add_0_r, Z.add_0_r, Hout by lia.
        rewrite Hchip. apply list_lookup_insert_eq. exact Hi_lt.
      * destruct (Hin k child Hk) as (reg' & -> & Hentry).
        exists reg'. split; [reflexivity |].
        replace (Z.to_nat i + S k)%nat with (Z.to_nat (i + 1) + k)%nat by lia.
        replace (i + Z.of_nat (S k)) with (i + 1 + Z.of_nat k) by lia.
        exact Hentry.
    + intros j Hj. simpl in Hj. rewrite Hout by lia.
      rewrite Hchip. apply list_lookup_insert_ne. lia.
  - injection Hrun as Hz _. lia.
Qed.

(** X22. [jz4780_nand_probe] gives up before touching anything when the
    NEMC exposes no bank to the device ([-ENODEV]) or the controller cannot
    be allocated ([-ENOMEM]): no call is made to a collaborator and no
    driver data is set. *)
Theorem probe_early_failure (children : list (option Z)) (lg : list event) :
  to_u32 jz4780_nemc_num_banks = 0 ∨ devm_kzalloc_nfc_ok = false →
  jz4780_nand_probe children lg
  = Some (if to_u32 jz4780_nemc_num_banks =? 0 then - ENODEV else - ENOMEM,
          lg, None).
Proof.
  intros Hfail. unfold jz4780_nand_probe. cbv zeta.
  destruct (to_u32 jz4780_nemc_num_banks =? 0) eqn:Hn; [reflexivity |].
  destruct Hfail as [Hz | Hk]; [rewrite Hz in Hn; discriminate |].
  rewrite Hk. reflexivity.
Qed.

(** X23. More child nodes than banks: the probe fails with [-EINVAL]
    and attaches nothing; not one bank is typed, mapped or scanned. *)
Theorem probe_rejects_more_chips_than_banks (children : list (option Z))
    (lg : list event) :
  EINVAL ≠ 0 →
  devm_kzalloc_nfc_ok = true →
  0 < to_u32 jz4780_nemc_num_banks < Z.of_nat (length children) →
  Z.of_nat (length children) < 2 ^ 32 →
  jz4780_nand_probe children lg = Some (- EINVAL, lg, None).
Proof.
  intros Hinv Hk Hbanks Hlen. unfold jz4780_nand_probe. cbv zeta.
  destruct (Z.eqb_spec (to_u32 jz4780_nemc_num_banks) 0) as [? | _]; [lia |].
  rewrite Hk. simpl. unfold jz4780_nand_init_chips. cbv zeta. simpl.
  rewrite (to_u32_small (Z.of_nat (length children))) by lia.
  destruct (Z.gtb_spec (Z.of_nat (length children)) (to_u32 jz4780_nemc_num_banks));
    [| lia].
  simpl. destruct (Z.eqb_spec (- EINVAL) 0) as [? | _]; [lia |]. reflexivity.
Qed.

(** X24. A controller node without child nodes probes successfully: the
    result is 0, no collaborator beyond the bank count and the allocation
    is called, and the driver data is a controller with no BCH handle and a
    zeroed slot for every bank. *)
Theorem probe_without_children (lg : list event) :
  devm_kzalloc_nfc_ok = true →
  to_u32 jz4780_nemc_num_banks ≠ 0 →
  jz4780_nand_probe [] lg
  = Some (0, lg,
          Some (Build_controller None (to_u32 jz4780_nemc_num_banks)
                  (replicate (Z.to_nat (to_u32 jz4780_nemc_num_banks))
                     (Build_cs 0 0)))).
Proof.
  intros Hk Hbanks. unfold jz4780_nand_probe. cbv zeta.
  destruct (Z.eqb_spec (to_u32 jz4780_nemc_num_banks) 0) as [? | _]; [contradiction |].
  rewrite Hk. cbn [negb]. unfold jz4780_nand_init_chips. cbv zeta.
  change (to_u32 (Z.of_nat (length (@nil (option Z))))) with 0.
  pose proof (to_u32_range jz4780_nemc_num_banks).
  cbn [nfc num_banks].
  destruct (Z.gtb_spec 0 (to_u32 jz4780_nemc_num_banks)) as [Hgt | _]; [lia |].
  reflexivity.
Qed.

(** X25. The driver data of the platform device is set only by a probe
    that returns 0; and, the two errno constants being non-zero, every
    probe that returns 0 sets it. *)
Theorem probe_sets_drvdata_on_success_only (children : list (option Z))
    (lg lg' : list event) (ret : Z) (d : option jz4780_nand_controller) :
  jz4780_nand_probe children lg = Some (ret, lg', d) →
  (is_Some d → ret = 0) ∧
  (ENODEV ≠ 0 → ENOMEM ≠ 0 → ret = 0 → is_Some d).
Proof.
  unfold jz4780_nand_probe. cbv zeta.
  destruct (_ =? 0).
  { intros [= <- <- <-]. split; [intros [? ?]; discriminate | intros; lia]. }
  destruct devm_kzalloc_nfc_ok; simpl.
  2: { intros [= <- <- <-]. split; [intros [? ?]; discriminate | intros; lia]. }
  destruct (jz4780_nand_init_chips _ _) as [[r st] |]; [| discriminate]. simpl.
  destruct (Z.eqb_spec r 0) as [-> | Hr]; simpl; intros [= <- <- <-].
  - split; [done | eauto].
  - split; [intros [? ?]; discriminate | done].
Qed.

(** X26. After a successful probe the table of banks numbers the chips
    in the order of the child nodes: slot [k] holds the bank number of the
    "reg" property of child [k] and the window mapped for memory resource
    [k], whatever the bank numbers are; the slots after the last child are
    still zero, and there are as many slots as banks. *)
Theorem probe_numbers_chips_in_child_order (children : list (option Z))
    (lg lg' : list event) (n : jz4780_nand_controller) :
  scans_keep_cs →
  EINVAL ≠ 0 →
  jz4780_nand_probe children lg = Some (0, lg', Some n) →
  length (cs n) = Z.to_nat (to_u32 jz4780_nemc_num_banks) ∧
  (length children ≤ length (cs n))%nat ∧
  (∀ (k : nat) child, children !! k = Some child →
     ∃ reg, child = Some reg ∧
       cs n !! k = Some (Build_cs (to_u32 reg)
                           (match devm_ioremap_resource (Z.of_nat k) with
                            | inl p => p
                            | inr e => e
                            end))) ∧
  (∀ j : nat, (length children ≤ j < length (cs n))%nat →
              cs n !! j = Some (Build_cs 0 0)).
Proof.
  intros Hkeep Hinv. unfold jz4780_nand_probe. cbv zeta.
  destruct (_ =? 0); [discriminate |].
  destruct devm_kzalloc_nfc_ok; simpl; [| discriminate].
  set (st0 := Build_state _ _ lg).
  destruct (jz4780_nand_init_chips children st0) as [[r st] |] eqn:Hchips;
    [| discriminate].
  simpl. destruct (Z.eqb_spec r 0) as [-> | Hr]; simpl; [| discriminate].
  intros [= <- <-].
  unfold jz4780_nand_init_chips in Hchips. cbv zeta in Hchips.
  destruct (Z.gtb_spec (to_u32 (Z.of_nat (length children))) (num_banks (nfc st0)))
    as [Hgt | Hle]; [injection Hchips as Hz _; lia |].
  destruct (init_chips_from_table children 0 st0 st Hkeep Hinv ltac:(lia) Hchips)
    as (Hlen & Hin & Hout).
  simpl in Hlen, Hout. rewrite length_replicate in Hlen.
  split; [exact Hlen |].
  assert (Hfit : (length children ≤ length (cs (nfc st)))%nat).
  { destruct (Nat.le_gt_cases (length children) (length (cs (nfc st))))
      as [? | Hlt]; [assumption | exfalso].
    destruct (lookup_lt_is_Some_2 children (length (cs (nfc st))) Hlt)
      as [child Hchild].
    destruct (Hin _ _ Hchild) as (reg & _ & Hentry). simpl in Hentry.
    apply lookup_lt_Some in Hentry. lia. }
  split; [exact Hfit |]. split.
  - intros k child Hk. destruct (Hin k child Hk) as (reg & -> & Hentry).
    exists reg. split; [reflexivity | exact Hentry].
  - intros j Hj. rewrite Hout by (simpl; lia).
    apply lookup_replicate_2. lia.
Qed.

End ProbePath.

(** * The further properties on the concrete platforms *)

(** An address cycle: ALE latched once, two address bytes after it. *)
Lemma latched_window_takes_following_bytes_witness :
  ∃ st', @cmd_ctrl_seq (board 1 geom_224) [(-1, 0x85); (0x12, 0x05); (0x34, 0x05)]
           chip0_selected = Some st' ∧
    log st' = [EvNemcAssert 1 true; EvWriteb 0x12 0x1b800000;
               EvWriteb 0x34 0x1b800000].
Proof.
  destruct (@latched_window_takes_following_bytes (board 1 geom_224) (-1) 0x85
              [(0x12, 0x05); (0x34, 0x05)] chip0_selected (Build_cs 1 0x1b000000)
              eq_refl eq_refl
              ltac:(repeat constructor; simpl; lia))
    as (st' & Hrun & _ & Hlog).
  exists st'. split; [exact Hrun |]. rewrite Hlog. reflexivity.
Defined.

Lemma selected_chip_writes_stay_in_window_witness :
  ∃ st' l, @select_then (board 1 geom_224) 1 [(0x70, 0x83); (0x1ff, 0x01)] two_banks
           = Some st' ∧
    log st' = [] ++ l ∧
    Forall (writes_within (Build_cs 3 0x1d000000)) l.
Proof.
  destruct (@selected_chip_writes_stay_in_window (board 1 geom_224) 1
              [(0x70, 0x83); (0x1ff, 0x01)] two_banks (Build_cs 3 0x1d000000)
              ltac:(lia) eq_refl)
    as (st' & l & Hrun & Hlog & Hin & _).
  exists st', l. split; [exact Hrun |]. split; [exact Hlog | exact Hin].
Defined.

Lemma deselect_is_final_witness :
  ∃ st1, @jz4780_nand_select_chip (-1) chip0_selected = Some st1 ∧
    selected (nand st1) = -1 ∧
    @jz4780_nand_cmd_ctrl (board 1 geom_224) 0x70 0x83 st1 = Some (emit EvWarn st1).
Proof.
  destruct (@deselect_is_final (board 1 geom_224) chip0_selected
              (or_intror (ex_intro _ (Build_cs 1 0x1b000000) eq_refl)))
    as (st1 & Hrun & Hsel & _ & _ & _ & _ & Hwarn).
  exists st1. split; [exact Hrun |]. split; [exact Hsel | apply Hwarn].
Defined.

(** Chip 0 on bank 1, then chip 1 on bank 3, no deselect: both asserted. *)
Lemma reselect_leaves_old_bank_asserted_witness :
  ∃ st1 st2, @select_then (board 1 geom_224) 0 [(0x70, 0x83)] two_banks = Some st1 ∧
    @select_then (board 1 geom_224) 1 [(0x70, 0x83)] st1 = Some st2 ∧
    1 ∈ nemc_asserted (log st2) ∧ 3 ∈ nemc_asserted (log st2).
Proof.
  destruct (@reselect_leaves_old_bank_asserted (board 1 geom_224) 0 1 0x70 0x83
              0x70 0x83 two_banks (Build_cs 1 0x1b000000) (Build_cs 3 0x1d000000)
              ltac:(lia) ltac:(lia) eq_refl eq_refl eq_refl eq_refl eq_refl eq_refl)
    as (st1 & st2 & l & Hrun1 & Hrun2 & _ & _ & Ha & Hb).
  exists st1, st2. repeat (split; [assumption |]). exact Hb.
Defined.

Lemma bus_traffic_keeps_ecc_hint_witness :
  ∃ st', @select_then (board 1 geom_224) 0 [(0x80, 0x83); (0x00, 0x85)]
           (@jz4780_nand_ecc_hwctl (board 1 geom_224) 1 (with_bch geom_224))
         = Some st' ∧
    reading (nand st') = false ∧
    (@jz4780_nand_ecc_calculate (board 1 geom_224) [1; 2] [] st').1 = (0, []).
Proof.
  destruct (@bus_traffic_keeps_ecc_hint (board 1 geom_224) 1 0
              [(0x80, 0x83); (0x00, 0x85)] [1; 2] [] (with_bch geom_224)
              (Build_cs 1 0x1b000000) ltac:(lia) eq_refl)
    as (st' & Hrun & Hread & _ & _ & _ & Hcalc).
  exists st'. split; [exact Hrun |]. split; [exact Hread | exact Hcalc].
Defined.

Lemma init_ecc_soft_mode_leaves_layout_witness :
  ∃ st', @jz4780_nand_init_ecc (board 1 soft_geom) (identified soft_geom)
         = Some (0, st') ∧
    ecclayout (nand st') = ecclayout (nand (identified soft_geom)) ∧
    nfc st' = nfc (identified soft_geom).
Proof.
  destruct (@init_ecc_soft_mode_leaves_layout (board 1 soft_geom)
              (identified soft_geom) (or_intror eq_refl))
    as (st' & Hrun & _ & Hlay & _ & _ & Hnfc & _).
  exists st'. split; [exact Hrun |]. split; [exact Hlay | exact Hnfc].
Defined.

Lemma init_ecc_hw_needs_bch_node_witness :
  ∃ st', @jz4780_nand_init_ecc (lab no_bch_node) (identified geom_224)
         = Some (-19, st') ∧
    ecc_hooks st' = (false, false, false).
Proof.
  destruct (@init_ecc_hw_needs_bch_node (lab no_bch_node) (identified geom_224)
              eq_refl eq_refl eq_refl)
    as (st' & Hrun & Hhooks & _).
  exists st'. split; [exact Hrun | exact Hhooks].
Defined.

Lemma init_ecc_hw_returns_bch_get_error_witness :
  ∃ st', @jz4780_nand_init_ecc (lab bch_get_defers) (identified geom_224)
         = Some (-517, st') ∧
    bch (nfc st') = None ∧
    ecc_hooks st' = (false, false, false).
Proof.
  destruct (@init_ecc_hw_returns_bch_get_error (lab bch_get_defers)
              (identified geom_224) 7 (-517) None eq_refl eq_refl eq_refl eq_refl
              ltac:(lia))
    as (st' & Hrun & Hbch & Hhooks & _).
  exists st'. split; [exact Hrun |]. split; [exact Hbch | exact Hhooks].
Defined.

Lemma with_bch_224_fits : layout_fits (with_bch geom_224).
Proof. repeat split; vm_compute; [discriminate | lia | lia]. Defined.

Lemma identified_512_fits : layout_fits (identified geom_512).
Proof. repeat split; vm_compute; [discriminate | lia | lia]. Defined.

Lemma init_ecc_hw_reuses_handle_witness :
  ∃ st', @jz4780_nand_init_ecc (lab bch_get_defers) (with_bch geom_224)
         = Some (0, st') ∧
    bch (nfc st') = Some 7 ∧
    ecc_hooks st' = (true, true, true).
Proof.
  destruct (@init_ecc_hw_reuses_handle (lab bch_get_defers) (with_bch geom_224) 7
              eq_refl eq_refl with_bch_224_fits)
    as (st' & Hrun & Hnfc & Hhooks & _).
  exists st'. split; [exact Hrun |]. rewrite Hnfc. split; [reflexivity | exact Hhooks].
Defined.

Lemma init_ecc_raw_mode_installs_no_hook_witness :
  ∃ st', @jz4780_nand_init_ecc (board 1 geom_512) (identified geom_512)
         = Some (0, st') ∧
    bch (nfc st') = None ∧
    ecc_hooks st' = (false, false, false).
Proof.
  destruct (@init_ecc_raw_mode_installs_no_hook (board 1 geom_512)
              (identified geom_512) ltac:(discriminate)
              ltac:(intros [Hs | Hs]; discriminate Hs) identified_512_fits)
    as (st' & Hrun & Hnfc & Hhooks & _).
  exists st'. split; [exact Hrun |]. rewrite Hnfc. split; [reflexivity | exact Hhooks].
Defined.

(** The record [jz4780_nand_init_chip] allocates has mode none and step
    size 0; an identification phase that sets no step size leaves it so. *)
Lemma init_ecc_zero_step_divides_by_zero_witness :
  @jz4780_nand_init_ecc (board 1 no_step_geom) (identified no_step_geom) = None.
Proof.
  apply (@init_ecc_zero_step_divides_by_zero (board 1 no_step_geom)
           (identified no_step_geom)).
  - intros [Hs | Hs]; discriminate Hs.
  - intros Hhw. discriminate Hhw.
  - reflexivity.
Defined.

(** Scenario 3: strength 24 on 1024-byte steps takes 42 bytes. *)
Lemma ecc_bytes_exact_for_1k_steps_witness :
  ecc_bytes_of 1024 (4 * 6) = 7 * 6 ∧ spec_ecc_bytes_per_step 1024 (4 * 6) = 7 * 6.
Proof.
  apply (ecc_bytes_exact_for_1k_steps 1024 6); [lia | split; [lia | reflexivity]].
Defined.

Lemma init_chip_map_failure_witness :
  ∃ st', @jz4780_nand_init_chip (lab ioremap_fails) 0 two_banks = Some (-16, st') ∧
    log st' = [EvNemcSetType 1] ∧
    nand st' = nand two_banks.
Proof.
  destruct (@init_chip_map_failure (lab ioremap_fails) 0 (-16) two_banks
              (Build_cs 1 0x1b000000) eq_refl eq_refl)
    as (st' & Hrun & Hlog & _ & _ & Hnand).
  exists st'. split; [exact Hrun |]. split; [exact Hlog | exact Hnand].
Defined.

Lemma init_chip_early_failure_witness :
  ∃ st', @jz4780_nand_init_chip (lab wp_fails) 0 two_banks = Some (-2, st') ∧
    log st' = [EvNemcSetType 1] ∧
    nand st' = nand two_banks.
Proof.
  destruct (@init_chip_early_failure (lab wp_fails) 0 0x1b000000 (-2) two_banks
              (Build_cs 1 0x1b000000) eq_refl eq_refl
              (or_intror (or_intror
                 (conj eq_refl (conj (ex_intro _ None eq_refl) eq_refl)))))
    as (st' & Hrun & Hlog & _ & _ & Hnand).
  exists st'. split; [exact Hrun |]. split; [exact Hlog | exact Hnand].
Defined.

Lemma init_chip_hands_fresh_chip_to_scan_witness :
  ∃ st0, selected (nand st0) = -1 ∧
    dev_ready (chip (nand st0)) = true ∧
    busy_gpio_active_low (nand st0) = true ∧
    @jz4780_nand_init_chip (lab all_good) 0 two_banks
    = @init_chip_scan (lab all_good) (@nand_scan_ident (lab all_good) st0).2.
Proof.
  destruct (@init_chip_hands_fresh_chip_to_scan (lab all_good) 0 0x1b000000
              (Some 20) None two_banks (Build_cs 1 0x1b000000)
              eq_refl eq_refl eq_refl eq_refl eq_refl)
    as (st0 & Hrun & _ & _ & Hsel & _ & Hready & _ & Hlow & _).
  exists st0. split; [exact Hsel |]. split; [exact Hready |].
  split; [exact Hlow | exact Hrun].
Defined.

Lemma init_ecc_on_lab (k : knobs) :
  k_phandle k = Some 7 → k_bch_get k = (0, Some 7) →
  @jz4780_nand_init_ecc (lab k) (identified geom_224)
  = Some (0, @after_init_ecc (lab k) (identified geom_224)).
Proof.
  intros Hp Hg. unfold after_init_ecc.
  destruct (@init_ecc_layout_path (lab k) (identified geom_224))
    as (st' & -> & _).
  - intros [Hs | Hs]; discriminate Hs.
  - intros _. right. exists 7, (Some 7). split; [exact Hp | exact Hg].
  - exact identified_224_fits.
  - reflexivity.
Defined.

Lemma init_chip_scan_result_witness :
  ∃ st', @init_chip_scan (lab all_good) (identified geom_224) = Some (0, st').
Proof.
  destruct (@init_chip_scan_result (lab all_good) (identified geom_224) _ 0
              (init_ecc_on_lab all_good eq_refl eq_refl))
    as (ret & st' & Hrun & Hret & _).
  exists st'. rewrite Hrun, Hret. reflexivity.
Defined.

Lemma init_chip_tail_failure_releases_bch_witness :
  ∃ st', @init_chip_scan (lab tail_fails) (identified geom_224) = Some (-22, st') ∧
    bch (nfc st') = Some 7 ∧
    last (log st') = Some (EvBchRelease (Some 7)).
Proof.
  destruct (@init_chip_tail_failure_releases_bch (lab tail_fails)
              (identified geom_224) _ _ (-22)
              (init_ecc_on_lab tail_fails eq_refl eq_refl) eq_refl ltac:(lia))
    as (st' & Hrun & Hlog & Hnfc & _).
  exists st'. split; [exact Hrun |]. rewrite Hlog, Hnfc.
  split; vm_compute; reflexivity.
Defined.

Lemma init_chip_register_failure_unwinds_witness :
  ∃ st', @init_chip_scan (lab register_fails) (identified geom_224)
         = Some (-5, st') ∧
    log st' = [EvMtdParseRegister (-5); EvNandRelease; EvBchRelease (Some 7)].
Proof.
  destruct (@init_chip_register_failure_unwinds (lab register_fails)
              (identified geom_224) _ _ (-5)
              (init_ecc_on_lab register_fails eq_refl eq_refl) eq_refl eq_refl
              ltac:(lia))
    as (st' & Hrun & Hlog & _).
  exists st'. split; [exact Hrun |]. rewrite Hlog. vm_compute. reflexivity.
Defined.

(** Three children, the second without "reg": the third is never seen. *)
Lemma init_chips_failure_is_final_witness :
  fst <$> @init_chips_from (lab all_good) (banks 4) ([Some 1; None] ++ [Some 3]) 0
            (Build_state (Build_controller None 4 (replicate 4 (Build_cs 0 0)))
               (nand two_banks) [])
  = Some (-22).
Proof.
  erewrite (@init_chips_failure_is_final (lab all_good) (banks 4)
              [Some 1; None] [Some 3] 0 (-22)).
  - reflexivity.
  - vm_compute. reflexivity.
  - lia.
Defined.

Lemma init_chips_stops_at_missing_reg_witness :
  fst <$> @jz4780_nand_init_chips (lab all_good) (banks 4) ([Some 1] ++ [None; Some 3])
            (Build_state (Build_controller None 4 (replicate 4 (Build_cs 0 0)))
               (nand two_banks) [])
  = Some (-22).
Proof.
  erewrite (@init_chips_stops_at_missing_reg (lab all_good) (banks 4)
              [Some 1] [Some 3]).
  - reflexivity.
  - simpl. lia.
  - repeat constructor. eauto.
  - vm_compute. reflexivity.
Defined.

Lemma probe_early_failure_witness :
  @jz4780_nand_probe (lab all_good) (banks 0) [Some 1] [] = Some (-19, [], None).
Proof.
  apply (@probe_early_failure (lab all_good) (banks 0) [Some 1] []).
  left. reflexivity.
Defined.

(** Scenario 2: three children, two banks. *)
Lemma probe_rejects_more_chips_than_banks_witness :
  @jz4780_nand_probe (lab all_good) (banks 2) [Some 1; Some 2; Some 3] []
  = Some (-22, [], None).
Proof.
  apply (@probe_rejects_more_chips_than_banks (lab all_good) (banks 2)
           [Some 1; Some 2; Some 3] []);
    [simpl; lia | reflexivity | simpl; rewrite to_u32_small; lia | simpl; lia].
Defined.

Lemma probe_without_children_witness :
  @jz4780_nand_probe (lab all_good) (banks 2) [] []
  = Some (0, [], Some (Build_controller None 2 [Build_cs 0 0; Build_cs 0 0])).
Proof.
  apply (@probe_without_children (lab all_good) (banks 2) []);
    [reflexivity | vm_compute; discriminate].
Defined.

Lemma probe_sets_drvdata_on_success_only_witness :
  ∃ ret lg d,
    @jz4780_nand_probe (lab all_good) (banks 4) [Some 1; Some 3] [] = Some (ret, lg, d) ∧
    (is_Some d → ret = 0) ∧ (ret = 0 → is_Some d).
Proof.
  eexists. eexists. eexists. split; [vm_compute; reflexivity |].
  destruct (@probe_sets_drvdata_on_success_only (lab all_good) (banks 4)
              [Some 1; Some 3] [] _ _ _ ltac:(vm_compute; reflexivity))
    as [Honly Hall].
  split; [exact Honly | apply Hall; simpl; lia].
Defined.

Lemma lab_scans_keep_cs (k : knobs) : @scans_keep_cs (lab k).
Proof. intros st. split; reflexivity. Defined.

(** Scenario 1: banks 1 and 3 become chips 0 and 1. *)
Lemma probe_numbers_chips_in_child_order_witness :
  ∃ lg n,
    @jz4780_nand_probe (lab all_good) (banks 4) [Some 1; Some 3] []
    = Some (0, lg, Some n) ∧
    cs n !! 0%nat = Some (Build_cs 1 0x1b000000) ∧
    cs n !! 1%nat = Some (Build_cs 3 0x1c000000) ∧
    cs n !! 2%nat = Some (Build_cs 0 0).
Proof.
  eexists. eexists. split; [vm_compute; reflexivity |].
  destruct (@probe_numbers_chips_in_child_order (lab all_good) (banks 4)
              [Some 1; Some 3] [] _ _ (lab_scans_keep_cs all_good)
              ltac:(simpl; lia) ltac:(vm_compute; reflexivity))
    as (_ & _ & Hin & Hout).
  split; [| split].
  - destruct (Hin 0%nat (Some 1) eq_refl) as (reg & [= <-] & Hentry). exact Hentry.
  - destruct (Hin 1%nat (Some 3) eq_refl) as (reg & [= <-] & Hentry). exact Hentry.
  - apply Hout. vm_compute. lia.
Defined.

(** C3 (the code at the failing input). A 16 KiB page with a 1280-byte
    OOB, step size 1024 and strength 24: [total_ecc_bytes] is 672 and
    [total_ecc_bytes + 2 <= oob_size] holds, but the [eccpos] array has 640
    entries.  The layout loop runs past its end, the store to
    [eccpos[640]] being the first one outside the array, so
    [jz4780_nand_init_ecc] has no defined result, and not the layout of 672
    contiguous positions with the single free region (2, 606). *)
Theorem init_ecc_overruns_eccpos :
  total_ecc_bytes (identified geom_1280) = 672 ∧
  total_ecc_bytes (identified geom_1280) + 2
  <= oobsize (mtd (nand (identified geom_1280))) ∧
  length (eccpos (ecclayout (nand (identified geom_1280)))) = 640%nat ∧
  (∃ pos, fill_eccpos 640 0 608 (eccpos (ecclayout (nand (identified geom_1280))))
          = Some pos ∧
          store_at 640 (to_u32 (608 + 640)) pos = None) ∧
  @jz4780_nand_init_ecc (board 1 geom_1280) (identified geom_1280) = None.
Proof.
  split; [vm_compute; reflexivity |].
  split; [vm_compute; discriminate |].
  split; [vm_compute; reflexivity |].
  split; [| vm_compute; reflexivity].
  eexists. split; vm_compute; reflexivity.
Qed.
